(** * check_ranger_policy: resolution and validation of an Apache Ranger policy

    A shallow embedding of [src/check_ranger_policy.py] (class
    [CheckRangerPolicy]: [parse_json], [check_policy], [print_policies])
    and the properties its specification states about it.

    Conventions of the embedding.
    - The decoded JSON payload is a Python value ([pyval]); dictionaries are
      association lists in insertion order, looked up by first match.
    - The language semantics followed are Python 3's ([str], [repr],
      [format], truth values, subscripting).  A character of a Rocq [string]
      stands for one character of a Python [str] (code points below 256).
    - A float is carried by its truth value and its printed form: the plugin
      never does arithmetic on the payload.
    - [self] is split in two: the options fixed by [process_options]
      ([options]) and the part that the check mutates ([plugin]: status,
      message, standard output).
    - Statements that may raise live in the monad [M] (state and
      exceptions). *)

From Stdlib Require Import String Ascii List ZArith Bool Lia DecimalString.
Import ListNotations.
Open Scope string_scope.
Set Warnings "-register-all".

(** ** Python values *)

Module Py.

Inductive pyval : Type :=
| PNone
| PBool (b : bool)
| PInt (z : Z)
| PFloat (nonzero : bool) (printed : string)
| PStr (s : string)
| PList (l : list pyval)
| PDict (d : list (string * pyval)).

(** Exceptions that the plugin raises or lets escape. *)
Inductive exn : Type :=
| CriticalError (m : string)
| UnknownError (m : string)
| KeyError (key : string)
| TypeError
| AssertionError
| SystemExit (code : Z).

Inductive result (A : Type) : Type :=
| Ok (a : A)
| Raise (e : exn).
Arguments Ok {A} a.
Arguments Raise {A} e.

(** [bool(v)]: the truth value of [v], as tested by [if v] and [not v]. *)
Definition truthy (v : pyval) : bool :=
  match v with
  | PNone => false
  | PBool b => b
  | PInt z => negb (z =? 0)%Z
  | PFloat nz _ => nz
  | PStr s => negb (s =? "")
  | PList l => match l with [] => false | _ => true end
  | PDict d => match d with [] => false | _ => true end
  end.

(** Truth value of an option taken from the command line: [None] when the
    flag was not given, a [str] otherwise (the empty one is false). *)
Definition truthy_opt (o : option string) : bool :=
  match o with
  | None => false
  | Some s => negb (s =? "")
  end.

(** [d[key]] on the items of a dict. *)
Fixpoint lookup (key : string) (d : list (string * pyval)) : option pyval :=
  match d with
  | [] => None
  | (k, v) :: rest => if k =? key then Some v else lookup key rest
  end.

(** [v[key]] for a [str] key: a dict is looked up and raises [KeyError] on a
    missing key; a list or a str wants integer indices and every other value
    is not subscriptable: [TypeError]. *)
Definition subscript (v : pyval) (key : string) : result pyval :=
  match v with
  | PDict d =>
      match lookup key d with
      | Some x => Ok x
      | None => Raise (KeyError key)
      end
  | _ => Raise TypeError
  end.

(** [v == s] for a [str] [s]: only an equal [str] compares equal. *)
Definition eq_str (v : pyval) (s : string) : bool :=
  match v with
  | PStr t => t =? s
  | _ => false
  end.

(** [str(z)] for an int. *)
Definition str_int (z : Z) : string := NilZero.string_of_int (Z.to_int z).

Definition hex_digit (n : nat) : ascii :=
  nth n
    ["0"; "1"; "2"; "3"; "4"; "5"; "6"; "7";
     "8"; "9"; "a"; "b"; "c"; "d"; "e"; "f"]%char "0"%char.

Fixpoint mem_char (c : ascii) (s : string) : bool :=
  match s with
  | EmptyString => false
  | String d rest => (c =? d)%char || mem_char c rest
  end.

(** A character that [repr] of a [str] copies unchanged: printable ASCII,
    and the printable part of Latin-1 (not the C1 controls, the no-break
    space or the soft hyphen). *)
Definition printable (c : ascii) : bool :=
  let n := nat_of_ascii c in
  if (n <? 32)%nat then false
  else if (n <? 127)%nat then true
  else if (n <? 161)%nat then false
  else negb (n =? 173)%nat.

Definition repr_char (quote c : ascii) : string :=
  if (c =? quote)%char || (c =? "\")%char then String "\" (String c "")
  else if (c =? "009")%char then "\t"
  else if (c =? "010")%char then "\n"
  else if (c =? "013")%char then "\r"
  else if printable c then String c ""
  else
    let n := nat_of_ascii c in
    String "\" (String "x" (String (hex_digit (n / 16))
                                     (String (hex_digit (n mod 16)) ""))).

Fixpoint repr_chars (quote : ascii) (s : string) : string :=
  match s with
  | EmptyString => ""
  | String c rest => repr_char quote c ++ repr_chars quote rest
  end.

(** [repr(s)] for a [str]: single quotes, unless the text holds a single
    quote and no double quote. *)
Definition repr_str (s : string) : string :=
  let quote :=
    if mem_char "'"%char s && negb (mem_char "034"%char s)
    then "034"%char else "'"%char in
  String quote (repr_chars quote s ++ String quote "").

Fixpoint join (sep : string) (l : list string) : string :=
  match l with
  | [] => ""
  | [x] => x
  | x :: rest => x ++ sep ++ join sep rest
  end.

(** [repr(v)]. *)
Fixpoint repr (v : pyval) : string :=
  match v with
  | PNone => "None"
  | PBool true => "True"
  | PBool false => "False"
  | PInt z => str_int z
  | PFloat _ printed => printed
  | PStr s => repr_str s
  | PList l => "[" ++ join ", " (map repr l) ++ "]"
  | PDict d =>
      "{" ++ join ", " (map (fun kv => repr_str (fst kv) ++ ": " ++ repr (snd kv)) d)
          ++ "}"
  end.

(** [str(v)], which is also ['{0}'.format(v)]. *)
Definition str (v : pyval) : string :=
  match v with
  | PStr s => s
  | _ => repr v
  end.

(** [str(o)] for a command-line option. *)
Definition str_opt (o : option string) : string :=
  match o with
  | None => "None"
  | Some s => s
  end.

(** [c * n] for a one-character str. *)
Fixpoint repeat_char (c : ascii) (n : nat) : string :=
  match n with
  | O => ""
  | S k => String c (repeat_char c k)
  end.

(** ['{0:{1}}'.format(s, width)] for a str: left-justified. *)
Definition ljust (s : string) (width : nat) : string :=
  s ++ repeat_char " " (width - String.length s).

(** The same for a number: right-justified. *)
Definition rjust (s : string) (width : nat) : string :=
  repeat_char " " (width - String.length s) ++ s.

(** ['{0:{1}}'.format(v, width)] with a width given: a str is padded on the
    right, a number on the left, a bool is formatted as the int it is, and
    [None], lists and dicts refuse a format specification. *)
Definition format_width (v : pyval) (width : nat) : result string :=
  match v with
  | PStr s => Ok (ljust s width)
  | PInt z => Ok (rjust (str_int z) width)
  | PBool b => Ok (rjust (if b then "1" else "0") width)
  | PFloat _ printed => Ok (rjust printed width)
  | PNone | PList _ | PDict _ => Raise TypeError
  end.

End Py.

(** ** The plugin *)

Module CheckRangerPolicy.
Import Py.

(** The outcome classification of a check execution. *)
Inductive severity : Type := OK | CRITICAL | UNKNOWN.

(** Modelled from the spec: the table [ERRORS] of [harisekhon.utils], which
    is not under src/.  Section 6 of the specification gives the exit codes
    OK -> 0, CRITICAL -> 2, unknown -> 3. *)
Definition ERRORS (s : severity) : Z :=
  match s with
  | OK => 0
  | CRITICAL => 2
  | UNKNOWN => 3
  end.

(** Modelled from the spec: [isList] of [harisekhon.utils], which is not
    under src/.  The specification calls for a value that is a sequence
    (array-shaped). *)
Definition isList (v : pyval) : bool :=
  match v with
  | PList _ => true
  | _ => false
  end.

(** The items a [for] loop visits in a value that passed [isList]. *)
Definition items (v : pyval) : list pyval :=
  match v with
  | PList l => l
  | _ => []
  end.

(** [v is None] *)
Definition is_None (v : pyval) : bool :=
  match v with
  | PNone => true
  | _ => false
  end.

(** The attributes of [self] that [process_options] fixes before the payload
    is parsed.  [policy_name] and [policy_id] are [None] or the text given
    on the command line; [verbose], [host] and [port] are set by the
    framework ([port] is held as it prints). *)
Record options : Type := {
  policy_name : option string;
  policy_id : option string;
  no_audit : bool;
  recursive : bool;
  list_policies : bool;
  verbose : bool;
  host : string;
  port : string
}.

(** What one [print] call writes: a text, or the text [jsonpp(v)] of the
    pretty-printer of [harisekhon.utils] (not under src/), recorded by the
    value it is given. *)
Inductive piece : Type :=
| Str (s : string)
| Json (v : pyval).

(** A line of output: the pieces written before its newline. *)
Definition line : Type := list piece.

(** The attributes of [self] that the check changes, and standard output:
    the finished lines and the pieces of the line being written. *)
Record plugin : Type := {
  status : severity;
  msg : string;
  stdout : list line;
  pending : line
}.

(** The message is the one [__init__] sets.  Modelled from the spec: the
    status a check starts from is set by the framework, which is not under
    src/; the specification has the severity remain OK if no step raises
    it. *)
Definition init : plugin :=
  {| status := OK; msg := "Ranger Message Not Defined"; stdout := []; pending := [] |}.

(** *** State and exceptions *)

Definition M (A : Type) : Type := plugin -> result A * plugin.

Definition ret {A : Type} (a : A) : M A := fun s => (Ok a, s).

Definition bind {A B : Type} (m : M A) (k : A -> M B) : M B :=
  fun s =>
    match m s with
    | (Ok a, s') => k a s'
    | (Raise e, s') => (Raise e, s')
    end.

Definition raise {A : Type} (e : exn) : M A := fun s => (Raise e, s).

Definition lift {A : Type} (r : result A) : M A := fun s => (r, s).

Declare Scope py_scope.
Delimit Scope py_scope with py.
Notation "x <- m ;; k" := (bind m (fun x => k))
  (at level 61, m at next level, right associativity) : py_scope.
Notation "m ;; k" := (bind m (fun _ => k))
  (at level 61, right associativity) : py_scope.
Open Scope py_scope.

(** [if c: body] *)
Definition when (c : bool) (body : M unit) : M unit :=
  if c then body else ret tt.

(** [assert c] *)
Definition assert (c : bool) : M unit :=
  if c then ret tt else raise AssertionError.

(** [sys.exit(code)] *)
Definition sys_exit {A : Type} (code : Z) : M A := raise (SystemExit code).

(** Modelled from the spec: [self.critical()] of the framework, which is not
    under src/: it raises the severity to CRITICAL. *)
Definition critical : M unit :=
  fun s => (Ok tt, {| status := CRITICAL; msg := msg s;
                      stdout := stdout s; pending := pending s |}).

(** [self.msg = m] *)
Definition set_msg (m : string) : M unit :=
  fun s => (Ok tt, {| status := status s; msg := m;
                      stdout := stdout s; pending := pending s |}).

(** [self.msg += m] *)
Definition add_msg (m : string) : M unit :=
  fun s => (Ok tt, {| status := status s; msg := msg s ++ m;
                      stdout := stdout s; pending := pending s |}).

(** [print(p, end='')] *)
Definition print_end (p : piece) : M unit :=
  fun s => (Ok tt, {| status := status s; msg := msg s;
                      stdout := stdout s; pending := (pending s ++ [p])%list |}).

(** [print()] *)
Definition print_newline : M unit :=
  fun s => (Ok tt, {| status := status s; msg := msg s;
                      stdout := (stdout s ++ [pending s])%list; pending := [] |}).

(** [print(p)] *)
Definition print (p : piece) : M unit := print_end p ;; print_newline.

(** [d[key]] on a dict of the program's own. *)
Fixpoint getitem {A : Type} (key : string) (d : list (string * A)) : result A :=
  match d with
  | [] => Raise (KeyError key)
  | (k, v) :: rest => if k =? key then Ok v else getitem key rest
  end.

(** [key in d] *)
Fixpoint contains_key {A : Type} (key : string) (d : list (string * A)) : bool :=
  match d with
  | [] => false
  | (k, _) :: rest => (k =? key) || contains_key key rest
  end.

(** [d[key] = v]: an existing key keeps its place, a new one goes last. *)
Fixpoint setitem {A : Type} (key : string) (v : A) (d : list (string * A))
  : list (string * A) :=
  match d with
  | [] => [(key, v)]
  | (k, x) :: rest =>
      if k =? key then (k, v) :: rest else (k, x) :: setitem key v rest
  end.

(** *** check_policy *)

Definition check_policy (self : options) (policy : pyval) : M unit :=
  policy_name_ <- lift (subscript policy "policyName") ;;
  policy_id_ <- lift (subscript policy "id") ;;
  when (truthy_opt (policy_id self))
    (assert (str policy_id_ =? str_opt (policy_id self))) ;;
  set_msg ("Ranger policy id '" ++ str policy_id_ ++ "' name '"
             ++ str policy_name_ ++ "'") ;;
  match policy_name self with
  | Some name =>
      when (negb (eq_str policy_name_ name))
        (critical ;; add_msg (" (expected '" ++ name ++ "')"))
  | None => ret tt
  end ;;
  enabled <- lift (subscript policy "isEnabled") ;;
  auditing <- lift (subscript policy "isAuditEnabled") ;;
  recursive_ <- lift (subscript policy "isRecursive") ;;
  add_msg (", enabled = " ++ str enabled) ;;
  when (negb (truthy enabled))
    (critical ;; add_msg " (expected True)") ;;
  add_msg (", auditing = " ++ str auditing) ;;
  when (negb (truthy auditing) && negb (no_audit self))
    (critical ;; add_msg " (expected True)") ;;
  add_msg (", recursive = " ++ str recursive_) ;;
  when (recursive self && negb (truthy recursive_))
    (critical ;; add_msg " (expected True)").

(** *** print_policies *)

Definition cols : list (string * string) :=
  [("Name", "policyName");
   ("RepoName", "repositoryName");
   ("RepoType", "repositoryType");
   ("Description", "description");
   ("Enabled", "isEnabled");
   ("Audit", "isAuditEnabled");
   ("Recursive", "isRecursive");
   ("Id", "id")].

Definition columns : list string :=
  ["Id"; "Name"; "RepoName"; "RepoType"; "Enabled"; "Audit"; "Recursive";
   "Description"].

Definition widths_t : Type := list (string * nat).

(** [for col in cols: widths[col] = len(col)], from the empty dict. *)
Definition initial_widths : widths_t :=
  fold_left (fun widths col => setitem col (String.length col) widths)
            (map fst cols) [].

(** The inner loop [for col in cols] of the first pass, for one record. *)
Fixpoint measure_record (keys : list string) (r : pyval) (widths : widths_t)
  : M widths_t :=
  match keys with
  | [] => ret widths
  | col :: rest =>
      if col =? "Description" then measure_record rest r widths
      else
        let widths :=
          if negb (contains_key col widths) then setitem col 0 widths
          else widths in
        field <- lift (getitem col cols) ;;
        v <- lift (subscript r field) ;;
        let width := String.length (str v) in
        w <- lift (getitem col widths) ;;
        let widths :=
          if (w <? width)%nat then setitem col width widths else widths in
        measure_record rest r widths
  end.

(** The first pass over the policies: each one is dumped, then measured. *)
Fixpoint measure (policy_list : list pyval) (widths : widths_t) : M widths_t :=
  match policy_list with
  | [] => ret widths
  | r :: rest =>
      print (Json r) ;;
      widths <- measure_record (map fst cols) r widths ;;
      measure rest widths
  end.

(** [for heading in columns: total_width += widths[heading] + 2] *)
Fixpoint sum_widths (headings : list string) (widths : widths_t)
  (total_width : nat) : M nat :=
  match headings with
  | [] => ret total_width
  | heading :: rest =>
      w <- lift (getitem heading widths) ;;
      sum_widths rest widths (total_width + (w + 2))
  end.

(** The header row, without its newline. *)
Fixpoint print_headings (headings : list string) (widths : widths_t) : M unit :=
  match headings with
  | [] => ret tt
  | heading :: rest =>
      w <- lift (getitem heading widths) ;;
      print_end (Str (ljust heading w ++ "  ")) ;;
      print_headings rest widths
  end.

(** The cells of one record's row, without its newline. *)
Fixpoint print_cells (cs : list string) (r : pyval) (widths : widths_t)
  : M unit :=
  match cs with
  | [] => ret tt
  | col :: rest =>
      field <- lift (getitem col cols) ;;
      v <- lift (subscript r field) ;;
      w <- lift (getitem col widths) ;;
      cell <- lift (format_width v w) ;;
      print_end (Str (cell ++ "  ")) ;;
      print_cells rest r widths
  end.

(** The last loop: one row per policy. *)
Fixpoint print_rows (policy_list : list pyval) (widths : widths_t) : M unit :=
  match policy_list with
  | [] => ret tt
  | r :: rest =>
      print_cells columns r widths ;;
      print_newline ;;
      print_rows rest widths
  end.

Definition print_policies (policy_list : list pyval) : M unit :=
  widths <- measure policy_list initial_widths ;;
  total_width <- sum_widths columns widths 0 ;;
  print (Str (repeat_char "=" total_width)) ;;
  print_headings columns widths ;;
  print_newline ;;
  print (Str (repeat_char "=" total_width)) ;;
  print_rows policy_list widths.

(** *** parse_json *)

(** The loop that looks a policy up by name; [policy] is [None] when it
    starts and stays so when the loop ends without a match. *)
Fixpoint search (name : string) (policy_list : list pyval) : M pyval :=
  match policy_list with
  | [] => ret PNone
  | p :: rest =>
      n <- lift (subscript p "policyName") ;;
      if eq_str n name then ret p else search name rest
  end.

Definition host_info (self : options) : string :=
  if verbose self then " at '" ++ host self ++ ":" ++ port self ++ "'" else "".

Definition no_policies_found : exn :=
  CriticalError "no Ranger policies found!".

Definition non_list (self : options) : exn :=
  UnknownError ("non-list returned for json_data[vXPolicies] by Ranger"
                  ++ host_info self).

Definition no_matching_policy (self : options) : exn :=
  CriticalError ("no matching policy found with name '"
                   ++ str_opt (policy_name self)
                   ++ "' in policy list returned by Ranger" ++ host_info self).

(** The two [if] statements that open [parse_json]: [policy] and
    [policy_list].  When [policy_id] is false the second one always assigns
    [policy_list], so the value it has before that is never read. *)
Definition extract (self : options) (json_data : pyval) : M (pyval * pyval) :=
  let policy := if truthy_opt (policy_id self) then json_data else PNone in
  let policy_list := PList [policy] in
  if negb (truthy_opt (policy_id self)) || list_policies self then
    policy_list <- lift (subscript json_data "vXPolicies") ;;
    ret (policy, policy_list)
  else ret (policy, policy_list).

Definition parse_json (self : options) (json_data : pyval) : M unit :=
  pl <- extract self json_data ;;
  let policy := fst pl in
  let policy_list := snd pl in
  when (negb (truthy policy_list)) (raise no_policies_found) ;;
  when (negb (isList policy_list)) (raise (non_list self)) ;;
  when (list_policies self)
    (print_policies (items policy_list) ;; sys_exit (ERRORS UNKNOWN)) ;;
  policy <-
    (if is_None policy && truthy_opt (policy_name self)
     then search (str_opt (policy_name self)) (items policy_list)
     else ret policy) ;;
  when (negb (truthy policy)) (raise (no_matching_policy self)) ;;
  check_policy self policy.

(** Modelled from the spec: how the framework ([RestNagiosPlugin] and
    [NagiosPlugin.main], not under src/) ends a run.  A check that returns
    exits with the code of its status; [CriticalError] is surfaced as
    CRITICAL and [UnknownError] as unknown; an absent field, a wrong shape
    and an internal inconsistency ([KeyError], [TypeError],
    [AssertionError]) are unknown too; [sys.exit] keeps its code. *)
Definition exit_code (r : result unit * plugin) : Z :=
  match r with
  | (Ok _, s) => ERRORS (status s)
  | (Raise (CriticalError _), _) => ERRORS CRITICAL
  | (Raise (UnknownError _), _) => ERRORS UNKNOWN
  | (Raise (KeyError _), _) => ERRORS UNKNOWN
  | (Raise TypeError, _) => ERRORS UNKNOWN
  | (Raise AssertionError, _) => ERRORS UNKNOWN
  | (Raise (SystemExit code), _) => code
  end.

(** A run of the check on a decoded payload. *)
Definition run (self : options) (json_data : pyval) : result unit * plugin :=
  parse_json self json_data init.

(** *** __init__ and process_options *)

(** [self.path] as [__init__] sets it. *)
Definition initial_path : string := "/service/public/api/policy".

(** What [get_opt] returns for the options that [add_options] declares:
    [None] or the text given for [--name] and [--id], and the flags. *)
Record parsed : Type := {
  opt_name : option string;
  opt_id : option string;
  opt_no_audit : bool;
  opt_recursive : bool;
  opt_list_policies : bool
}.

(** How [process_options] ends: [self.usage(m)] of the framework (not under
    src/) stops the program, and is kept as an outcome of its own;
    otherwise the attributes are set. *)
Inductive started (A : Type) : Type :=
| Usage (m : string)
| Ready (a : A).
Arguments Usage {A} m.
Arguments Ready {A} a.

(** [process_options], after the framework's own ([verbose_], [host_] and
    [port_] are what it has set): the attributes read from the options and
    [self.path], which gets the id appended for a direct lookup. *)
Definition process_options (verbose_ : bool) (host_ port_ : string)
  (o : parsed) (path : string) : started (options * string) :=
  let self :=
    {| policy_name := opt_name o; policy_id := opt_id o;
       no_audit := opt_no_audit o; recursive := opt_recursive o;
       list_policies := opt_list_policies o;
       verbose := verbose_; host := host_; port := port_ |} in
  if negb (list_policies self)
     && (negb (truthy_opt (policy_name self))
         && negb (truthy_opt (policy_id self)))
  then Usage "--policy name / --policy-id is not defined"
  else
    Ready (self,
           if truthy_opt (policy_id self) && negb (list_policies self)
           then path ++ "/" ++ str_opt (policy_id self)
           else path).

End CheckRangerPolicy.

(** ** Vocabulary of the properties *)

Module Props.
Import Py CheckRangerPolicy.

(** [needle] occurs in [hay]. *)
Definition Contains (needle hay : string) : Prop :=
  exists before after, hay = before ++ needle ++ after.

(** The marker a failed condition appends to its clause. *)
Definition expected (failed : bool) : string :=
  if failed then " (expected True)" else "".

(** The name given with [--name] differs from the name of the policy. *)
Definition name_mismatch (self : options) (name_ : pyval) : bool :=
  match policy_name self with
  | Some name => negb (eq_str name_ name)
  | None => false
  end.

Definition audit_fails (self : options) (auditing : pyval) : bool :=
  negb (truthy auditing) && negb (no_audit self).

Definition recursive_fails (self : options) (recursive_ : pyval) : bool :=
  recursive self && negb (truthy recursive_).

(** The five fields [check_policy] reads are present in [policy]. *)
Definition fields (policy name_ id_ enabled auditing recursive_ : pyval) : Prop :=
  subscript policy "policyName" = Ok name_ /\
  subscript policy "id" = Ok id_ /\
  subscript policy "isEnabled" = Ok enabled /\
  subscript policy "isAuditEnabled" = Ok auditing /\
  subscript policy "isRecursive" = Ok recursive_.

(** The assertion on the id holds, or is not made. *)
Definition id_agrees (self : options) (id_ : pyval) : Prop :=
  truthy_opt (policy_id self) = true -> str id_ = str_opt (policy_id self).

(** Direct lookup: an id was given and the policies are not listed. *)
Definition direct_lookup (self : options) : bool :=
  truthy_opt (policy_id self) && negb (list_policies self).

(** The message of a validated policy, clause by clause. *)
Definition summary (self : options) (name_ id_ enabled auditing recursive_ : pyval)
  : string :=
  "Ranger policy id '" ++ str id_ ++ "' name '" ++ str name_ ++ "'"
    ++ (if name_mismatch self name_
        then " (expected '" ++ str_opt (policy_name self) ++ "')" else "")
    ++ ", enabled = " ++ str enabled ++ expected (negb (truthy enabled))
    ++ ", auditing = " ++ str auditing ++ expected (audit_fails self auditing)
    ++ ", recursive = " ++ str recursive_
    ++ expected (recursive_fails self recursive_).

(** *** The listing *)

(** A value that [format] accepts with a width: a str, a number or a bool. *)
Definition formattable (v : pyval) : bool :=
  match v with
  | PStr _ | PInt _ | PBool _ | PFloat _ _ => true
  | PNone | PList _ | PDict _ => false
  end.

(** A record that can be listed: it has the field of each column, with a
    value that can be formatted. *)
Definition listable (r : pyval) : bool :=
  forallb
    (fun col =>
       match getitem col cols with
       | Ok field =>
           match subscript r field with
           | Ok v => formattable v
           | Raise _ => false
           end
       | Raise _ => false
       end)
    columns.

(** The exceptions of a payload of the wrong shape. *)
Definition shape_error (e : exn) : bool :=
  match e with
  | KeyError _ | TypeError => true
  | _ => false
  end.

(** The widths that the first pass of [print_policies] computes. *)
Definition measured (policy_list : list pyval) : widths_t :=
  match fst (measure policy_list initial_widths init) with
  | Ok widths => widths
  | Raise _ => initial_widths
  end.

Definition width_of (widths : widths_t) (col : string) : nat :=
  match getitem col widths with
  | Ok w => w
  | Raise _ => 0
  end.

Definition total_width (widths : widths_t) : nat :=
  fold_left (fun total heading => total + (width_of widths heading + 2))
            columns 0.

Definition border (widths : widths_t) : line :=
  [Str (repeat_char "=" (total_width widths))].

Definition header (widths : widths_t) : line :=
  map (fun heading => Str (ljust heading (width_of widths heading) ++ "  "))
      columns.

(** The value of a record in a column. *)
Definition field_of (r : pyval) (col : string) : pyval :=
  match getitem col cols with
  | Ok field =>
      match subscript r field with
      | Ok v => v
      | Raise _ => PNone
      end
  | Raise _ => PNone
  end.

Definition cell (widths : widths_t) (r : pyval) (col : string) : piece :=
  match format_width (field_of r col) (width_of widths col) with
  | Ok text => Str (text ++ "  ")
  | Raise _ => Str ""
  end.

(** The row of a listable record: one cell per column. *)
Definition row (widths : widths_t) (r : pyval) : line :=
  map (cell widths r) columns.

(** The table of a listing: the dumps, the framed header, the rows. *)
Definition table (policy_list : list pyval) : list line :=
  let widths := measured policy_list in
  (map (fun r => [Json r]) policy_list
     ++ [border widths; header widths; border widths]
     ++ map (row widths) policy_list)%list.

(** Every column has a width. *)
Definition complete (widths : widths_t) : Prop :=
  forall col, In col columns -> contains_key col widths = true.

(** A computation raises nothing but shape errors. *)
Definition shape_errors_only {A : Type} (m : M A) : Prop :=
  forall s, match fst (m s) with
            | Ok _ => True
            | Raise e => shape_error e = true
            end.

(** *** Resolution by name *)

(** The record has a name. *)
Definition named (r : pyval) : bool :=
  match subscript r "policyName" with
  | Ok _ => true
  | Raise _ => false
  end.

(** The record's name equals [name]. *)
Definition has_name (name : string) (r : pyval) : bool :=
  match subscript r "policyName" with
  | Ok n => eq_str n name
  | Raise _ => false
  end.

(** The payload has no collection of policies: the field is absent, or it
    holds a value that is true and not a list. *)
Definition malformed (json_data : pyval) : bool :=
  match subscript json_data "vXPolicies" with
  | Raise _ => true
  | Ok v => negb (isList v) && truthy v
  end.

(** *** Scenarios *)

Definition by_name (name : string) : options :=
  {| policy_name := Some name; policy_id := None; no_audit := false;
     recursive := false; list_policies := false; verbose := false;
     host := "localhost"; port := "6080" |}.

Definition by_id (id : string) (name : option string) : options :=
  {| policy_name := name; policy_id := Some id; no_audit := false;
     recursive := false; list_policies := false; verbose := false;
     host := "localhost"; port := "6080" |}.

Definition listing : options :=
  {| policy_name := None; policy_id := None; no_audit := false;
     recursive := false; list_policies := true; verbose := false;
     host := "localhost"; port := "6080" |}.

Definition p1 : pyval :=
  PDict [("id", PInt 1); ("policyName", PStr "p1"); ("isEnabled", PBool true);
         ("isAuditEnabled", PBool true); ("isRecursive", PBool false)].

Definition other : pyval :=
  PDict [("id", PInt 2); ("policyName", PStr "other");
         ("isEnabled", PBool false); ("isAuditEnabled", PBool true);
         ("isRecursive", PBool false)].

Definition hdfs_policy (id : Z) (name : string) : pyval :=
  PDict [("id", PInt id); ("policyName", PStr name);
         ("repositoryName", PStr "cluster_hadoop");
         ("repositoryType", PStr "hdfs"); ("description", PStr "");
         ("isEnabled", PBool true); ("isAuditEnabled", PBool false);
         ("isRecursive", PBool true)].

Definition collection (policy_list : list pyval) : pyval :=
  PDict [("vXPolicies", PList policy_list)].

Definition two_policies : list pyval :=
  [hdfs_policy 3 "tmp"; hdfs_policy 14 "warehouse"].

(** Three policies whose names differ by case or repeat. *)
Definition three_policies : list pyval :=
  [hdfs_policy 3 "P1"; hdfs_policy 4 "p1"; hdfs_policy 5 "p1"].

(** *** What a check does to its state *)

(** The header of the message, with the clause of the name. *)
Definition heading (self : options) (name_ id_ : pyval) : string :=
  "Ranger policy id '" ++ str id_ ++ "' name '" ++ str name_ ++ "'"
    ++ (if name_mismatch self name_
        then " (expected '" ++ str_opt (policy_name self) ++ "')" else "").

(** The state when the header is written and the flags are about to be
    read. *)
Definition headed (self : options) (name_ id_ : pyval) (st : plugin) : plugin :=
  {| status := if name_mismatch self name_ then CRITICAL else status st;
     msg := heading self name_ id_;
     stdout := stdout st; pending := pending st |}.

(** The state of a validated policy. *)
Definition validated (self : options) (name_ id_ enabled auditing recursive_ : pyval)
  (st : plugin) : plugin :=
  {| status :=
       if name_mismatch self name_ || negb (truthy enabled)
          || audit_fails self auditing || recursive_fails self recursive_
       then CRITICAL else status st;
     msg := summary self name_ id_ enabled auditing recursive_;
     stdout := stdout st; pending := pending st |}.

(** The status stays or becomes CRITICAL and nothing is printed. *)
Definition escalates (s s' : plugin) : Prop :=
  (status s' = status s \/ status s' = CRITICAL)
  /\ stdout s' = stdout s /\ pending s' = pending s.

(** Status and message stay and the finished lines are only added to. *)
Definition prints (s s' : plugin) : Prop :=
  status s' = status s /\ msg s' = msg s
  /\ exists more, stdout s' = (stdout s ++ more)%list.

(** The ways [parse_json] can fail. *)
Definition expected_failure (self : options) (e : exn) : Prop :=
  shape_error e = true
  \/ (e = AssertionError /\ direct_lookup self = true)
  \/ e = no_policies_found
  \/ e = non_list self
  \/ (e = no_matching_policy self /\ list_policies self = false)
  \/ (e = SystemExit (ERRORS UNKNOWN) /\ list_policies self = true).

(** The record whose name [parse_json] looks for is [policy]: the payload
    in a direct lookup, the first record of the collection with the name
    otherwise. *)
Definition resolves (self : options) (json_data policy : pyval) : Prop :=
  (direct_lookup self = true /\ policy = json_data)
  \/ (direct_lookup self = false /\ list_policies self = false
      /\ exists records name before after,
           subscript json_data "vXPolicies" = Ok (PList records)
           /\ policy_name self = Some name /\ name <> ""
           /\ records = (before ++ policy :: after)%list
           /\ subscript policy "policyName" = Ok (PStr name)
           /\ Forall (fun p => named p = true /\ has_name name p = false) before).

(** *** The table *)



(** A record that the first pass cannot measure: a column other than the
    description has no value in it. *)
Definition unmeasurable (r : pyval) : bool :=
  existsb
    (fun col =>
       negb (col =? "Description")
       && match getitem col cols with
          | Ok field =>
              match subscript r field with
              | Ok _ => false
              | Raise _ => true
              end
          | Raise _ => true
          end)
    (map fst cols).

(** A computation keeps a relation between the state it starts from and
    the state it ends in, also when it raises. *)
Definition keeps {A : Type} (R : plugin -> plugin -> Prop) (m : M A) : Prop :=
  forall s, R s (snd (m s)).

(** The fields of a policy in the order [check_policy] reads them. *)
Definition read_order : list string :=
  ["policyName"; "id"; "isEnabled"; "isAuditEnabled"; "isRecursive"].

(** The item [key] is not in the dict. *)
Definition missing (d : list (string * pyval)) (key : string) : bool :=
  match lookup key d with
  | None => true
  | Some _ => false
  end.

(** The policy passes every condition asked of it. *)
Definition passes (self : options) (name_ enabled auditing recursive_ : pyval)
  : Prop :=
  name_mismatch self name_ = false
  /\ truthy enabled = true
  /\ (truthy auditing = true \/ no_audit self = true)
  /\ (recursive self = false \/ truthy recursive_ = true).


(** The items of a disabled policy without [isRecursive]. *)
Definition no_recursive_flag : list (string * pyval) :=
  [("id", PInt 2); ("policyName", PStr "other");
   ("isEnabled", PBool false); ("isAuditEnabled", PBool false)].

(** A status other than the one a check starts from. *)
Definition already_critical : plugin :=
  {| status := CRITICAL; msg := ""; stdout := []; pending := [] |}.

(** A record that has no repository type. *)
Definition no_repository_type : pyval :=
  PDict [("id", PInt 8); ("policyName", PStr "kafka_topics");
         ("repositoryName", PStr "cluster_kafka"); ("description", PStr "");
         ("isEnabled", PBool true); ("isAuditEnabled", PBool true);
         ("isRecursive", PBool false)].

(** A value is an object. *)
Definition is_object (v : pyval) : bool :=
  match v with
  | PDict _ => true
  | _ => false
  end.

(** ** Strings *)

Lemma append_assoc (a b c : string) : (a ++ b) ++ c = a ++ b ++ c.
Proof.
  induction a as [|x a IH]; simpl; [reflexivity | now rewrite IH].
Qed.

Lemma append_empty_r (a : string) : a ++ "" = a.
Proof.
  induction a as [|x a IH]; simpl; [reflexivity | now rewrite IH].
Qed.

Lemma Contains_here (needle after : string) : Contains needle (needle ++ after).
Proof. exists "", after. reflexivity. Qed.

Lemma Contains_after (before needle hay : string) :
  Contains needle hay -> Contains needle (before ++ hay).
Proof.
  intros (b & a & ->). exists (before ++ b), a. now rewrite append_assoc.
Qed.

Lemma Contains_append (needle rest hay : string) :
  Contains (needle ++ rest) hay -> Contains needle hay.
Proof.
  intros (b & a & ->). exists b, (rest ++ a). now rewrite append_assoc.
Qed.

(** ** check_policy in closed form *)

Ltac run_monad :=
  unfold bind, lift, when, assert, raise, ret, critical, set_msg, add_msg; simpl.

Lemma check_policy_validated self policy name_ id_ enabled auditing recursive_ st :
  fields policy name_ id_ enabled auditing recursive_ ->
  id_agrees self id_ ->
  check_policy self policy st =
    (Ok tt,
     {| status :=
          if name_mismatch self name_ || negb (truthy enabled)
             || audit_fails self auditing || recursive_fails self recursive_
          then CRITICAL else status st;
        msg := summary self name_ id_ enabled auditing recursive_;
        stdout := stdout st;
        pending := pending st |}).
Proof.
  intros (Hn & Hi & He & Ha & Hr) Hid.
  unfold check_policy, summary, name_mismatch, audit_fails, recursive_fails,
    id_agrees in *.
  unfold bind at 1. unfold lift at 1. rewrite Hn.
  unfold bind at 1. unfold lift at 1. rewrite Hi.
  assert (Hassert : when (truthy_opt (policy_id self))
            (assert (str id_ =? str_opt (policy_id self))) st = (Ok tt, st)).
  { unfold when, assert. destruct (truthy_opt (policy_id self)); [|reflexivity].
    rewrite Hid by reflexivity. now rewrite String.eqb_refl. }
  unfold bind at 1. rewrite Hassert.
  run_monad. rewrite He, Ha, Hr.
  destruct (policy_name self) as [name|]; simpl;
    [destruct (eq_str name_ name); simpl|];
    destruct (truthy enabled), (truthy auditing), (no_audit self),
      (recursive self), (truthy recursive_); simpl;
    rewrite ?append_assoc, ?append_empty_r; simpl;
    rewrite ?append_assoc; reflexivity.
Qed.

(** ** The dicts of the program *)

Lemma contains_key_getitem {A : Type} (key : string) (d : list (string * A)) :
  contains_key key d = true -> exists v, getitem key d = Ok v.
Proof.
  induction d as [|[k v] d IH]; simpl; [discriminate|].
  destruct (k =? key); simpl; [exists v; reflexivity | exact IH].
Qed.

Lemma contains_key_setitem {A : Type} (key k : string) (v : A) (d : list (string * A)) :
  contains_key key d = true -> contains_key key (setitem k v d) = true.
Proof.
  induction d as [|[k0 x] d IH]; simpl; [discriminate|].
  destruct (k0 =? k) eqn:E; simpl; [trivial|].
  destruct (k0 =? key); simpl; [trivial | exact IH].
Qed.

Lemma width_of_getitem (widths : widths_t) (col : string) :
  contains_key col widths = true -> getitem col widths = Ok (width_of widths col).
Proof.
  intros H. destruct (contains_key_getitem _ _ H) as [w Hw].
  unfold width_of. now rewrite Hw.
Qed.

Lemma complete_initial_widths : complete initial_widths.
Proof.
  intros col H. simpl in H.
  repeat (destruct H as [<-|H]; [reflexivity|]). contradiction.
Qed.

Lemma complete_setitem (widths : widths_t) (k : string) (w : nat) :
  complete widths -> complete (setitem k w widths).
Proof. intros H col Hin. apply contains_key_setitem, H, Hin. Qed.

Lemma cols_in_columns (col : string) : In col (map fst cols) -> In col columns.
Proof.
  simpl. intros H.
  repeat (destruct H as [<-|H]; [simpl; tauto|]). contradiction.
Qed.

Lemma listable_column (r : pyval) (col : string) :
  listable r = true -> In col columns ->
  exists field v,
    getitem col cols = Ok field /\ subscript r field = Ok v /\ formattable v = true.
Proof.
  unfold listable. rewrite forallb_forall. intros H Hin.
  specialize (H col Hin).
  destruct (getitem col cols) as [field|]; [|discriminate].
  destruct (subscript r field) as [v|] eqn:Hv; [|discriminate].
  now exists field, v.
Qed.

(** ** print_policies on listable records *)

Lemma measure_record_ok (r : pyval) :
  listable r = true ->
  forall keys widths s,
    incl keys columns -> complete widths ->
    exists widths',
      measure_record keys r widths s = (Ok widths', s) /\ complete widths'.
Proof.
  intros Hr. induction keys as [|col keys IH]; intros widths s Hincl Hc;
    cbn [measure_record].
  - exists widths. now split.
  - assert (Hin : In col columns) by (apply Hincl; now left).
    assert (Hrest : incl keys columns) by (intros x Hx; apply Hincl; now right).
    destruct (col =? "Description"); [now apply IH|].
    rewrite (Hc col Hin). cbn [negb].
    destruct (listable_column r col Hr Hin) as (field & v & Hf & Hv & _).
    unfold bind at 1. unfold lift at 1. rewrite Hf.
    unfold bind at 1. unfold lift at 1. rewrite Hv.
    unfold bind at 1. unfold lift at 1. rewrite (width_of_getitem _ _ (Hc col Hin)).
    apply IH; [exact Hrest|].
    destruct (width_of widths col <? String.length (str v))%nat;
      [now apply complete_setitem | exact Hc].
Qed.

Lemma print_piece (p : piece) (s : plugin) :
  pending s = [] ->
  print p s =
    (Ok tt,
     {| status := status s; msg := msg s;
        stdout := (stdout s ++ [[p]])%list; pending := [] |}).
Proof.
  intros Hp. unfold print, bind, print_end, print_newline.
  cbn [status msg stdout pending]. now rewrite Hp.
Qed.

Lemma measure_ok (policy_list : list pyval) :
  forallb listable policy_list = true ->
  forall widths s,
    complete widths -> pending s = [] ->
    exists widths',
      measure policy_list widths s =
        (Ok widths',
         {| status := status s; msg := msg s;
            stdout := (stdout s ++ map (fun r => [Json r]) policy_list)%list;
            pending := [] |})
      /\ complete widths'.
Proof.
  induction policy_list as [|r rest IH]; intros Hl widths s Hc Hp;
    cbn [measure map].
  - exists widths. split; [|exact Hc].
    unfold ret. destruct s; cbn in *. subst. now rewrite app_nil_r.
  - cbn [forallb] in Hl. apply andb_true_iff in Hl as [Hr Hrest].
    unfold bind at 1. rewrite (print_piece _ s Hp).
    unfold bind at 1.
    match goal with
    | |- context [measure_record ?k r widths ?s1] =>
        destruct (measure_record_ok r Hr k widths s1) as (w1 & -> & Hc1);
          [intros x Hx; now apply cols_in_columns | exact Hc |]
    end.
    destruct (IH Hrest w1
                {| status := status s; msg := msg s;
                   stdout := (stdout s ++ [[Json r]])%list; pending := [] |}
                Hc1 eq_refl) as (w2 & -> & Hc2).
    exists w2. split; [|exact Hc2].
    cbn [status msg stdout pending]. now rewrite <- app_assoc.
Qed.

Lemma sum_widths_ok (widths : widths_t) :
  complete widths ->
  forall headings total s,
    incl headings columns ->
    sum_widths headings widths total s =
      (Ok (fold_left (fun t heading => t + (width_of widths heading + 2))
                     headings total), s).
Proof.
  intros Hc. induction headings as [|h rest IH]; intros total s Hincl;
    cbn [sum_widths fold_left].
  - reflexivity.
  - unfold bind, lift.
    rewrite (width_of_getitem _ _ (Hc h (Hincl h (or_introl eq_refl)))).
    apply IH. intros x Hx. apply Hincl. now right.
Qed.

Lemma print_headings_ok (widths : widths_t) :
  complete widths ->
  forall headings s,
    incl headings columns ->
    print_headings headings widths s =
      (Ok tt,
       {| status := status s; msg := msg s; stdout := stdout s;
          pending :=
            (pending s
               ++ map (fun h => Str (ljust h (width_of widths h) ++ "  ")) headings)%list |}).
Proof.
  intros Hc. induction headings as [|h rest IH]; intros s Hincl;
    cbn [print_headings map].
  - unfold ret. destruct s; cbn. now rewrite app_nil_r.
  - unfold bind at 1. unfold lift at 1.
    rewrite (width_of_getitem _ _ (Hc h (Hincl h (or_introl eq_refl)))).
    unfold bind at 1. unfold print_end at 1.
    rewrite IH by (intros x Hx; apply Hincl; now right).
    cbn [status msg stdout pending]. now rewrite <- app_assoc.
Qed.

Lemma print_cells_ok (widths : widths_t) (r : pyval) :
  complete widths -> listable r = true ->
  forall cs s,
    incl cs columns ->
    print_cells cs r widths s =
      (Ok tt,
       {| status := status s; msg := msg s; stdout := stdout s;
          pending := (pending s ++ map (cell widths r) cs)%list |}).
Proof.
  intros Hc Hr. induction cs as [|col rest IH]; intros s Hincl;
    cbn [print_cells map].
  - unfold ret. destruct s; cbn. now rewrite app_nil_r.
  - assert (Hin : In col columns) by (apply Hincl; now left).
    destruct (listable_column r col Hr Hin) as (field & v & Hf & Hv & Hfmt).
    unfold bind at 1. unfold lift at 1. rewrite Hf.
    unfold bind at 1. unfold lift at 1. rewrite Hv.
    unfold bind at 1. unfold lift at 1. rewrite (width_of_getitem _ _ (Hc col Hin)).
    assert (Hcell : exists text,
               format_width v (width_of widths col) = Ok text
               /\ cell widths r col = Str (text ++ "  ")).
    { unfold cell, field_of. rewrite Hf, Hv.
      destruct v; try discriminate; cbn [format_width];
        eexists; split; reflexivity. }
    destruct Hcell as (text & Htext & Hcell).
    unfold bind at 1. unfold lift at 1. rewrite Htext.
    unfold bind at 1. unfold print_end at 1.
    rewrite IH by (intros x Hx; apply Hincl; now right).
    cbn [status msg stdout pending]. rewrite Hcell. now rewrite <- app_assoc.
Qed.

Lemma print_rows_ok (widths : widths_t) :
  complete widths ->
  forall policy_list s,
    forallb listable policy_list = true -> pending s = [] ->
    print_rows policy_list widths s =
      (Ok tt,
       {| status := status s; msg := msg s;
          stdout := (stdout s ++ map (row widths) policy_list)%list;
          pending := [] |}).
Proof.
  intros Hc. induction policy_list as [|r rest IH]; intros s Hl Hp;
    cbn [print_rows map].
  - unfold ret. destruct s; cbn in *. subst. now rewrite app_nil_r.
  - cbn [forallb] in Hl. apply andb_true_iff in Hl as [Hr Hrest].
    unfold bind at 1.
    rewrite (print_cells_ok widths r Hc Hr columns s (incl_refl _)).
    unfold bind at 1. unfold print_newline at 1.
    rewrite IH by trivial.
    cbn [status msg stdout pending]. rewrite Hp. cbn [app].
    fold (row widths r). now rewrite <- app_assoc.
Qed.

Lemma print_policies_ok (policy_list : list pyval) :
  forallb listable policy_list = true ->
  print_policies policy_list init =
    (Ok tt,
     {| status := OK; msg := msg init; stdout := table policy_list;
        pending := [] |}).
Proof.
  intros Hl. unfold print_policies, table.
  destruct (measure_ok policy_list Hl initial_widths init
              complete_initial_widths eq_refl) as (widths & Hm & Hc).
  assert (Hw : measured policy_list = widths) by (unfold measured; now rewrite Hm).
  rewrite Hw. unfold bind at 1. rewrite Hm.
  unfold bind at 1. rewrite (sum_widths_ok widths Hc columns 0 _ (incl_refl _)).
  fold (total_width widths).
  unfold bind at 1. rewrite print_piece by reflexivity.
  unfold bind at 1. rewrite (print_headings_ok widths Hc columns _ (incl_refl _)).
  unfold bind at 1. unfold print_newline at 1.
  unfold bind at 1. rewrite print_piece by reflexivity.
  rewrite (print_rows_ok widths Hc policy_list) by (try assumption; reflexivity).
  unfold border, header. cbn [status msg stdout pending init app].
  repeat rewrite <- app_assoc. reflexivity.
Qed.

(** ** A listing raises shape errors only *)

Lemma shape_ret {A : Type} (a : A) : shape_errors_only (ret a).
Proof. intros s. exact I. Qed.

Lemma shape_bind {A B : Type} (m : M A) (k : A -> M B) :
  shape_errors_only m -> (forall a, shape_errors_only (k a)) ->
  shape_errors_only (bind m k).
Proof.
  intros Hm Hk s. unfold bind. specialize (Hm s).
  destruct (m s) as [[a|e] s']; cbn [fst] in *; [apply Hk | exact Hm].
Qed.

Lemma subscript_raises (v : pyval) (key : string) (e : exn) :
  subscript v key = Raise e -> shape_error e = true.
Proof.
  destruct v; cbn [subscript]; try (intros [= <-]; reflexivity).
  destruct (lookup key d); [discriminate | intros [= <-]; reflexivity].
Qed.

Lemma shape_subscript (v : pyval) (key : string) :
  shape_errors_only (lift (subscript v key)).
Proof.
  intros s. unfold lift. cbn [fst].
  destruct (subscript v key) eqn:E; [exact I | exact (subscript_raises _ _ _ E)].
Qed.

Lemma shape_getitem {A : Type} (key : string) (d : list (string * A)) :
  shape_errors_only (lift (getitem key d)).
Proof.
  intros s. unfold lift. cbn [fst].
  induction d as [|[k v] d IH]; cbn [getitem]; [reflexivity|].
  destruct (k =? key); [exact I | exact IH].
Qed.

Lemma shape_format_width (v : pyval) (width : nat) :
  shape_errors_only (lift (format_width v width)).
Proof. intros s. destruct v; cbn; trivial. Qed.

Lemma shape_print_end (p : piece) : shape_errors_only (print_end p).
Proof. intros s. exact I. Qed.

Lemma shape_print_newline : shape_errors_only print_newline.
Proof. intros s. exact I. Qed.

Lemma shape_print (p : piece) : shape_errors_only (print p).
Proof.
  apply shape_bind; [apply shape_print_end | intros _; apply shape_print_newline].
Qed.

Create HintDb shape.
#[local] Hint Resolve shape_ret shape_subscript shape_getitem shape_format_width
  shape_print_end shape_print_newline shape_print : shape.

Ltac shape_step :=
  repeat (apply shape_bind; [auto with shape | intro]); auto with shape.

Lemma shape_measure_record (r : pyval) (keys : list string) :
  forall widths, shape_errors_only (measure_record keys r widths).
Proof.
  induction keys as [|col keys IH]; intros widths; cbn [measure_record].
  - apply shape_ret.
  - destruct (col =? "Description"); [apply IH|]. shape_step.
Qed.

Lemma shape_measure (policy_list : list pyval) :
  forall widths, shape_errors_only (measure policy_list widths).
Proof.
  induction policy_list as [|r rest IH]; intros widths; cbn [measure].
  - apply shape_ret.
  - apply shape_bind; [apply shape_print | intros _].
    apply shape_bind; [apply shape_measure_record | intros w; apply IH].
Qed.

Lemma shape_sum_widths (widths : widths_t) (headings : list string) :
  forall total, shape_errors_only (sum_widths headings widths total).
Proof.
  induction headings as [|h rest IH]; intros total; cbn [sum_widths];
    shape_step.
Qed.

Lemma shape_print_headings (widths : widths_t) (headings : list string) :
  shape_errors_only (print_headings headings widths).
Proof.
  induction headings as [|h rest IH]; cbn [print_headings]; shape_step.
Qed.

Lemma shape_print_cells (widths : widths_t) (r : pyval) (cs : list string) :
  shape_errors_only (print_cells cs r widths).
Proof.
  induction cs as [|c rest IH]; cbn [print_cells]; shape_step.
Qed.

Lemma shape_print_rows (widths : widths_t) (policy_list : list pyval) :
  shape_errors_only (print_rows policy_list widths).
Proof.
  induction policy_list as [|r rest IH]; cbn [print_rows].
  - apply shape_ret.
  - apply shape_bind; [apply shape_print_cells | intros _].
    apply shape_bind; [apply shape_print_newline | intros _; exact IH].
Qed.

Lemma shape_print_policies (policy_list : list pyval) :
  shape_errors_only (print_policies policy_list).
Proof.
  unfold print_policies.
  apply shape_bind; [apply shape_measure | intros widths].
  apply shape_bind; [apply shape_sum_widths | intros total].
  apply shape_bind; [apply shape_print | intros _].
  apply shape_bind; [apply shape_print_headings | intros _].
  apply shape_bind; [apply shape_print_newline | intros _].
  apply shape_bind; [apply shape_print | intros _].
  apply shape_print_rows.
Qed.

(** ** parse_json, mode by mode *)

Lemma truthy_nonempty (records : list pyval) :
  records <> [] -> truthy (PList records) = true.
Proof. destruct records; [congruence | reflexivity]. Qed.

(** Without direct lookup the collection is read from the payload. *)
Lemma extract_collection (self : options) (json_data : pyval) (st : plugin) :
  direct_lookup self = false ->
  extract self json_data st =
    match subscript json_data "vXPolicies" with
    | Ok policy_list =>
        (Ok (if truthy_opt (policy_id self) then json_data else PNone, policy_list),
         st)
    | Raise e => (Raise e, st)
    end.
Proof.
  unfold direct_lookup, extract. intros H.
  assert (Hc : negb (truthy_opt (policy_id self)) || list_policies self = true).
  { destruct (truthy_opt (policy_id self)), (list_policies self);
      try reflexivity; discriminate. }
  rewrite Hc. unfold bind, lift, ret.
  destruct (subscript json_data "vXPolicies"); reflexivity.
Qed.

(** With direct lookup the payload is the policy. *)
Lemma extract_direct (self : options) (json_data : pyval) (st : plugin) :
  direct_lookup self = true ->
  extract self json_data st = (Ok (json_data, PList [json_data]), st).
Proof.
  unfold direct_lookup, extract. intros H.
  apply andb_true_iff in H as [Hid Hl]. rewrite Hid.
  destruct (list_policies self); [discriminate | reflexivity].
Qed.

Lemma parse_json_listing (self : options) (json_data : pyval)
  (records : list pyval) (st : plugin) :
  list_policies self = true ->
  subscript json_data "vXPolicies" = Ok (PList records) ->
  records <> [] ->
  parse_json self json_data st =
    (print_policies records ;; sys_exit (ERRORS UNKNOWN)) st.
Proof.
  intros Hl Hs Hne. unfold parse_json.
  unfold bind at 1. rewrite extract_collection, Hs
    by (unfold direct_lookup; rewrite Hl; apply andb_false_r).
  cbn [fst snd]. rewrite (truthy_nonempty _ Hne), Hl.
  cbn [negb when isList items].
  unfold bind at 1. unfold ret at 1. unfold bind at 1. unfold ret at 1.
  unfold bind. destruct (print_policies records st) as [[[]|e] s']; reflexivity.
Qed.

Lemma parse_json_direct (self : options) (json_data : pyval) (st : plugin) :
  direct_lookup self = true ->
  parse_json self json_data st =
    if truthy json_data then check_policy self json_data st
    else if is_None json_data && truthy_opt (policy_name self)
         then (Raise TypeError, st)
         else (Raise (no_matching_policy self), st).
Proof.
  intros Hd. unfold parse_json.
  unfold bind at 1. rewrite (extract_direct _ _ _ Hd).
  apply andb_true_iff in Hd as [_ Hl]. apply negb_true_iff in Hl.
  rewrite Hl. cbn [fst snd truthy negb when isList items].
  unfold bind at 1. unfold ret at 1. unfold bind at 1. unfold ret at 1.
  destruct (is_None json_data && truthy_opt (policy_name self)) eqn:Hn.
  - apply andb_true_iff in Hn as [Hnone _].
    destruct json_data; try discriminate. reflexivity.
  - unfold bind, ret, when, raise.
    destruct (truthy json_data); reflexivity.
Qed.

Lemma search_named (name : string) (records : list pyval) (st : plugin) :
  forallb named records = true ->
  search name records st =
    (Ok match find (has_name name) records with
        | Some r => r
        | None => PNone
        end, st).
Proof.
  induction records as [|p rest IH]; cbn [search forallb find]; intros H.
  - reflexivity.
  - apply andb_true_iff in H as [Hp Hrest].
    unfold named in Hp. unfold has_name at 1. unfold bind, lift.
    destruct (subscript p "policyName") as [n|]; [|discriminate].
    destruct (eq_str n name); [reflexivity | exact (IH Hrest)].
Qed.

Lemma has_name_true (name : string) (r : pyval) :
  has_name name r = true <-> subscript r "policyName" = Ok (PStr name).
Proof.
  unfold has_name. split.
  - destruct (subscript r "policyName") as [n|]; [|discriminate].
    destruct n; cbn [eq_str]; try discriminate.
    intros H. apply String.eqb_eq in H. now subst.
  - intros ->. cbn [eq_str]. apply String.eqb_refl.
Qed.

Lemma has_name_false (name : string) (r : pyval) :
  has_name name r = false -> subscript r "policyName" <> Ok (PStr name).
Proof.
  intros H E. apply has_name_true in E. congruence.
Qed.

Lemma find_first {A : Type} (f : A -> bool) (l : list A) :
  match find f l with
  | Some x =>
      f x = true /\
      exists before after,
        l = (before ++ x :: after)%list /\ Forall (fun y => f y = false) before
  | None => Forall (fun y => f y = false) l
  end.
Proof.
  induction l as [|a l IH]; cbn [find].
  - constructor.
  - destruct (f a) eqn:E.
    + split; [exact E|]. exists [], l. split; [reflexivity | constructor].
    + destruct (find f l) as [x|].
      * destruct IH as (Hx & before & after & -> & Hb).
        split; [exact Hx|]. exists (a :: before), after.
        split; [reflexivity | now constructor].
      * now constructor.
Qed.

Lemma named_truthy (r : pyval) : named r = true -> truthy r = true.
Proof.
  unfold named. destruct r; cbn [subscript]; try discriminate.
  destruct d; [discriminate | reflexivity].
Qed.

(** ** The scenario of the specification *)

(** C1, as the program has it: for the payload
    [{"vXPolicies":[{"id":1,"policyName":"p1","isEnabled":true,
    "isAuditEnabled":true,"isRecursive":false}]}], the name [p1] and the
    default requirements (auditing required, recursion not), the check
    returns with status OK and the message is exactly
    [Ranger policy id '1' name 'p1', enabled = True, auditing = True,
    recursive = False], whatever the verbosity, host and port. *)
Theorem scenario_p1_ok (verbose_ : bool) (host_ port_ : string) :
  let self :=
    {| policy_name := Some "p1"; policy_id := None; no_audit := false;
       recursive := false; list_policies := false; verbose := verbose_;
       host := host_; port := port_ |} in
  run self (collection [p1]) =
    (Ok tt,
     {| status := OK;
        msg := "Ranger policy id '1' name 'p1', enabled = True, auditing = True, recursive = False";
        stdout := []; pending := [] |})
  /\ exit_code (run self (collection [p1])) = ERRORS OK.
Proof. split; reflexivity. Qed.

(** C1, as stated, fails: the message of the scenario does not start at
    [policy id]; the program puts [Ranger] before it. *)
Lemma scenario_p1_message_is_not_bare :
  ~ (exit_code (run (by_name "p1") (collection [p1])) = ERRORS OK
     /\ msg (snd (run (by_name "p1") (collection [p1])))
        = "policy id '1' name 'p1', enabled = True, auditing = True, recursive = False").
Proof. intros [_ H]. vm_compute in H. discriminate H. Qed.

(** ** Validation *)

(** C6: a policy that is validated and whose [isEnabled] is false gets the
    status CRITICAL and a message that contains
    [enabled = False (expected True)], whatever its other fields and the
    options are. *)
Theorem disabled_policy_critical
  (self : options) (policy name_ id_ auditing recursive_ : pyval) (st : plugin) :
  fields policy name_ id_ (PBool false) auditing recursive_ ->
  id_agrees self id_ ->
  exists st',
    check_policy self policy st = (Ok tt, st')
    /\ status st' = CRITICAL
    /\ exit_code (check_policy self policy st) = ERRORS CRITICAL
    /\ Contains "enabled = False (expected True)" (msg st').
Proof.
  intros Hf Hid.
  pose proof (check_policy_validated self policy _ _ _ _ _ st Hf Hid) as E.
  eexists. split; [exact E|]. rewrite E.
  cbn [status msg exit_code truthy negb]. rewrite orb_true_r. cbn [orb].
  repeat split.
  unfold summary. do 6 apply Contains_after.
  exists ", ". eexists. reflexivity.
Qed.

Lemma disabled_policy_critical_witness :
  (fields other (PStr "other") (PInt 2) (PBool false) (PBool true) (PBool false)
   /\ id_agrees (by_id "2" None) (PInt 2))
  /\ exists st',
       check_policy (by_id "2" None) other init = (Ok tt, st')
       /\ status st' = CRITICAL
       /\ exit_code (check_policy (by_id "2" None) other init) = ERRORS CRITICAL
       /\ Contains "enabled = False (expected True)" (msg st').
Proof.
  assert (Hf : fields other (PStr "other") (PInt 2) (PBool false) (PBool true)
                 (PBool false)) by (repeat split; reflexivity).
  assert (Hid : id_agrees (by_id "2" None) (PInt 2)) by (intros _; reflexivity).
  split; [split; [exact Hf | exact Hid]|].
  exact (disabled_policy_critical (by_id "2" None) other _ _ _ _ init Hf Hid).
Defined.

(** C7: on a validated policy whose flags are booleans, checked from the
    status OK, the auditing clause carries the marker [(expected True)]
    exactly when auditing is off and required, and the recursive clause
    exactly when recursion is off and required; the status becomes CRITICAL
    exactly when one of the clauses fails (the name, [enabled], auditing,
    recursion) and stays OK otherwise.  So a requirement that is waived
    ([--no-audit]) or not requested (no [--recursive]) never raises the
    status on its own. *)
Theorem audit_and_recursive_clauses
  (self : options) (policy name_ id_ : pyval) (e a r : bool) (st : plugin) :
  fields policy name_ id_ (PBool e) (PBool a) (PBool r) ->
  id_agrees self id_ ->
  status st = OK ->
  let audit_raises := negb a && negb (no_audit self) in
  let recursive_raises := recursive self && negb r in
  exists st',
    check_policy self policy st = (Ok tt, st')
    /\ (audit_raises = true <-> a = false /\ no_audit self = false)
    /\ (recursive_raises = true <-> r = false /\ recursive self = true)
    /\ status st' =
         (if name_mismatch self name_ || negb e || audit_raises || recursive_raises
          then CRITICAL else OK)
    /\ (name_mismatch self name_ = false -> e = true ->
        (status st' = CRITICAL <->
         (a = false /\ no_audit self = false) \/ (r = false /\ recursive self = true)))
    /\ msg st' =
         "Ranger policy id '" ++ str id_ ++ "' name '" ++ str name_ ++ "'"
           ++ (if name_mismatch self name_
               then " (expected '" ++ str_opt (policy_name self) ++ "')" else "")
           ++ ", enabled = " ++ (if e then "True" else "False") ++ expected (negb e)
           ++ ", auditing = " ++ (if a then "True" else "False")
           ++ expected audit_raises
           ++ ", recursive = " ++ (if r then "True" else "False")
           ++ expected recursive_raises.
Proof.
  intros Hf Hid Hst audit_raises recursive_raises.
  pose proof (check_policy_validated self policy _ _ _ _ _ st Hf Hid) as E.
  eexists. split; [exact E|].
  cbn [status msg]. unfold summary, audit_fails, recursive_fails.
  subst audit_raises recursive_raises. rewrite Hst. cbn [truthy].
  split; [|split; [|split; [|split]]].
  - destruct a, (no_audit self); cbn; intuition congruence.
  - destruct r, (recursive self); cbn; intuition congruence.
  - reflexivity.
  - intros -> ->.
    destruct a, r, (no_audit self), (recursive self); cbn; intuition congruence.
  - destruct e, a, r; reflexivity.
Qed.

Lemma audit_and_recursive_clauses_witness :
  (fields (hdfs_policy 7 "hdfs_all") (PStr "hdfs_all") (PInt 7)
          (PBool true) (PBool false) (PBool true)
   /\ id_agrees (by_name "hdfs_all") (PInt 7)
   /\ status init = OK)
  /\ exists st',
       check_policy (by_name "hdfs_all") (hdfs_policy 7 "hdfs_all") init = (Ok tt, st')
       /\ status st' = CRITICAL
       /\ msg st' =
            "Ranger policy id '7' name 'hdfs_all', enabled = True, auditing = False (expected True), recursive = True".
Proof.
  assert (Hf : fields (hdfs_policy 7 "hdfs_all") (PStr "hdfs_all") (PInt 7)
                 (PBool true) (PBool false) (PBool true))
    by (repeat split; reflexivity).
  assert (Hid : id_agrees (by_name "hdfs_all") (PInt 7))
    by (intros H; discriminate H).
  split; [repeat split; solve [exact Hf | exact Hid | reflexivity]|].
  destruct (audit_and_recursive_clauses (by_name "hdfs_all")
              (hdfs_policy 7 "hdfs_all") _ _ true false true init Hf Hid
              eq_refl) as (st' & E & _ & _ & Hstatus & _ & Hmsg).
  exists st'. split; [exact E|]. split; [exact Hstatus | exact Hmsg].
Defined.

(** C8: failures accumulate.  In a direct lookup by id whose policy has a
    name other than the one given with [--name] and is disabled, the check
    returns with the status CRITICAL and a message that contains the clause
    of the name, [ (expected '<name>')], and the clause [ (expected True)]
    of [enabled], one after the other. *)
Theorem failures_accumulate
  (self : options) (json_data name_ id_ auditing recursive_ : pyval)
  (id name : string) (st : plugin) :
  policy_id self = Some id -> id <> "" ->
  list_policies self = false ->
  policy_name self = Some name ->
  fields json_data name_ id_ (PBool false) auditing recursive_ ->
  str id_ = id ->
  eq_str name_ name = false ->
  exists st',
    parse_json self json_data st = (Ok tt, st')
    /\ status st' = CRITICAL
    /\ exit_code (parse_json self json_data st) = ERRORS CRITICAL
    /\ Contains (" (expected '" ++ name ++ "')") (msg st')
    /\ Contains " (expected True)" (msg st')
    /\ Contains (" (expected '" ++ name ++ "'), enabled = False (expected True)")
                (msg st').
Proof.
  intros Hid Hne Hl Hname Hf Hstr Hneq.
  assert (Ht : truthy_opt (policy_id self) = true).
  { rewrite Hid. cbn. apply negb_true_iff. now apply String.eqb_neq. }
  assert (Hd : direct_lookup self = true)
    by (unfold direct_lookup; now rewrite Ht, Hl).
  assert (Htrue : truthy json_data = true).
  { apply named_truthy. unfold named. destruct Hf as (-> & _). reflexivity. }
  assert (Hagree : id_agrees self id_) by (intros _; now rewrite Hid).
  pose proof (check_policy_validated self json_data _ _ _ _ _ st Hf Hagree) as E.
  assert (Hp : parse_json self json_data st = check_policy self json_data st)
    by (rewrite (parse_json_direct _ _ _ Hd), Htrue; reflexivity).
  rewrite Hp. eexists. split; [exact E|]. rewrite E.
  assert (Hm : name_mismatch self name_ = true)
    by (unfold name_mismatch; now rewrite Hname, Hneq).
  cbn [status msg exit_code]. rewrite Hm. cbn [orb].
  unfold summary. rewrite Hm, Hname. cbn [str_opt str repr truthy negb expected].
  repeat split.
  - do 5 apply Contains_after. rewrite <- append_assoc. apply Contains_here.
  - do 6 apply Contains_after.
    exists ", enabled = False". eexists. reflexivity.
  - do 5 apply Contains_after.
    exists "". eexists. cbn [append]. rewrite !append_assoc. reflexivity.
Qed.

Lemma failures_accumulate_witness :
  (policy_id (by_id "2" (Some "p1")) = Some "2" /\ "2" <> ""
   /\ list_policies (by_id "2" (Some "p1")) = false
   /\ policy_name (by_id "2" (Some "p1")) = Some "p1"
   /\ fields other (PStr "other") (PInt 2) (PBool false) (PBool true) (PBool false)
   /\ str (PInt 2) = "2"
   /\ eq_str (PStr "other") "p1" = false)
  /\ exists st',
       parse_json (by_id "2" (Some "p1")) other init = (Ok tt, st')
       /\ status st' = CRITICAL
       /\ exit_code (parse_json (by_id "2" (Some "p1")) other init) = ERRORS CRITICAL
       /\ Contains (" (expected '" ++ "p1" ++ "')") (msg st')
       /\ Contains " (expected True)" (msg st')
       /\ Contains (" (expected '" ++ "p1" ++ "'), enabled = False (expected True)")
                   (msg st').
Proof.
  assert (Hf : fields other (PStr "other") (PInt 2) (PBool false) (PBool true)
                 (PBool false)) by (repeat split; reflexivity).
  assert (Hne : "2" <> "") by discriminate.
  split; [repeat split; solve [exact Hf | exact Hne | reflexivity]|].
  exact (failures_accumulate (by_id "2" (Some "p1")) other _ _ _ _ "2" "p1" init
           eq_refl Hne eq_refl eq_refl Hf eq_refl eq_refl).
Defined.

(** C9: when an id is given, [check_policy] compares [str] of the policy's
    id with [str] of that id.  It raises [AssertionError] exactly when the
    two texts differ (the int 2 and the text [2] agree); the assertion
    leaves the status and the message as they were, and the run ends
    unknown, not CRITICAL. *)
Theorem id_assertion
  (self : options) (policy name_ id_ : pyval) (st : plugin) :
  truthy_opt (policy_id self) = true ->
  subscript policy "policyName" = Ok name_ ->
  subscript policy "id" = Ok id_ ->
  (fst (check_policy self policy st) = Raise AssertionError
   <-> str id_ <> str_opt (policy_id self))
  /\ (str id_ <> str_opt (policy_id self) ->
      check_policy self policy st = (Raise AssertionError, st)
      /\ exit_code (check_policy self policy st) = ERRORS UNKNOWN
      /\ exit_code (check_policy self policy st) <> ERRORS CRITICAL).
Proof.
  intros Ht Hn Hi.
  assert (Hraise : str id_ <> str_opt (policy_id self) ->
                   check_policy self policy st = (Raise AssertionError, st)).
  { intros Hne. apply String.eqb_neq in Hne.
    unfold check_policy. unfold bind at 1, lift at 1. rewrite Hn.
    unfold bind at 1, lift at 1. rewrite Hi.
    unfold bind at 1, when, assert. now rewrite Ht, Hne. }
  split; [split|].
  - intros Hfst Heq.
    destruct (subscript policy "isEnabled") as [e|x] eqn:He.
    2:{ revert Hfst. unfold check_policy. run_monad.
        rewrite Hn, Hi, Ht, Heq, String.eqb_refl.
        destruct (policy_name self) as [name|];
          [destruct (eq_str name_ name)|]; cbn; rewrite He; cbn;
          intros [= ->]; apply subscript_raises in He; discriminate He. }
    destruct (subscript policy "isAuditEnabled") as [a|x] eqn:Ha.
    2:{ revert Hfst. unfold check_policy. run_monad.
        rewrite Hn, Hi, Ht, Heq, String.eqb_refl.
        destruct (policy_name self) as [name|];
          [destruct (eq_str name_ name)|]; cbn; rewrite He, Ha; cbn;
          intros [= ->]; apply subscript_raises in Ha; discriminate Ha. }
    destruct (subscript policy "isRecursive") as [r|x] eqn:Hr.
    2:{ revert Hfst. unfold check_policy. run_monad.
        rewrite Hn, Hi, Ht, Heq, String.eqb_refl.
        destruct (policy_name self) as [name|];
          [destruct (eq_str name_ name)|]; cbn; rewrite He, Ha, Hr; cbn;
          intros [= ->]; apply subscript_raises in Hr; discriminate Hr. }
    rewrite (check_policy_validated self policy name_ id_ e a r st) in Hfst;
      [discriminate Hfst | repeat split; assumption | intros _; exact Heq].
  - intros Hne. now rewrite (Hraise Hne).
  - intros Hne. rewrite (Hraise Hne). repeat split. discriminate.
Qed.

Lemma id_assertion_witness :
  (truthy_opt (policy_id (by_id "2" None)) = true
   /\ subscript other "policyName" = Ok (PStr "other")
   /\ subscript other "id" = Ok (PInt 2))
  /\ fst (check_policy (by_id "2" None) other init) <> Raise AssertionError
  /\ check_policy (by_id "3" None) other init = (Raise AssertionError, init).
Proof.
  split; [repeat split|]. split.
  - intros H.
    apply (proj1 (id_assertion (by_id "2" None) other _ _ init
                    eq_refl eq_refl eq_refl)) in H.
    apply H. reflexivity.
  - apply (proj2 (id_assertion (by_id "3" None) other _ _ init
                    eq_refl eq_refl eq_refl)).
    discriminate.
Defined.

(** ** The collection of policies *)

(** C4, as the program has it: without direct lookup (no id given, or the
    policies are listed), a payload whose [vXPolicies] is the empty list
    makes the check fail with the CRITICAL error [no Ranger policies
    found!], whatever the name given and whether or not the policies are
    listed. *)
Theorem empty_collection_critical
  (self : options) (json_data : pyval) (st : plugin) :
  direct_lookup self = false ->
  subscript json_data "vXPolicies" = Ok (PList []) ->
  parse_json self json_data st
    = (Raise (CriticalError "no Ranger policies found!"), st)
  /\ exit_code (parse_json self json_data st) = ERRORS CRITICAL.
Proof.
  intros Hd Hs.
  assert (E : parse_json self json_data st
              = (Raise (CriticalError "no Ranger policies found!"), st)).
  { unfold parse_json. unfold bind at 1.
    rewrite (extract_collection _ _ _ Hd), Hs. reflexivity. }
  rewrite E. split; reflexivity.
Qed.

Lemma empty_collection_critical_witness :
  (direct_lookup listing = false
   /\ subscript (collection []) "vXPolicies" = Ok (PList []))
  /\ parse_json listing (collection []) init
       = (Raise (CriticalError "no Ranger policies found!"), init)
  /\ exit_code (parse_json listing (collection []) init) = ERRORS CRITICAL.
Proof.
  split; [split; reflexivity|].
  exact (empty_collection_critical listing (collection []) init eq_refl eq_refl).
Defined.

(** C4, as stated, fails when an id is given: the payload is then taken for
    the policy itself, its [vXPolicies] is not read, and the check ends on
    the missing name of that policy, not on [no Ranger policies found!]. *)
Lemma direct_lookup_ignores_collection :
  subscript (collection []) "vXPolicies" = Ok (PList [])
  /\ run (by_id "1" None) (collection []) = (Raise (KeyError "policyName"), init)
  /\ run (by_id "1" None) (collection [])
       <> (Raise (CriticalError "no Ranger policies found!"), init)
  /\ exit_code (run (by_id "1" None) (collection [])) <> ERRORS CRITICAL.
Proof. repeat split; vm_compute; discriminate. Qed.

(** C3, as the program has it: without direct lookup, if [vXPolicies] is
    absent from the payload (the subscript raises [KeyError], or
    [TypeError] on a payload that is no object) the check fails with that
    error, and if it holds a value that is true and not a list the check
    fails with the [UnknownError] for a non-list; either way the run ends
    unknown and not CRITICAL. *)
Theorem malformed_shape_unknown (self : options) (json_data : pyval) :
  direct_lookup self = false ->
  malformed json_data = true ->
  match subscript json_data "vXPolicies" with
  | Raise e => run self json_data = (Raise e, init) /\ shape_error e = true
  | Ok _ => run self json_data = (Raise (non_list self), init)
  end
  /\ exit_code (run self json_data) = ERRORS UNKNOWN
  /\ exit_code (run self json_data) <> ERRORS CRITICAL.
Proof.
  intros Hd Hm. unfold malformed in Hm.
  assert (E : run self json_data =
              match subscript json_data "vXPolicies" with
              | Raise e => (Raise e, init)
              | Ok _ => (Raise (non_list self), init)
              end).
  { unfold run, parse_json. unfold bind at 1.
    rewrite (extract_collection _ _ _ Hd).
    destruct (subscript json_data "vXPolicies") as [v|e]; [|reflexivity].
    apply andb_true_iff in Hm as [Hl Ht]. cbn [fst snd].
    unfold bind, when, raise, ret. now rewrite Ht, Hl. }
  rewrite E. clear E.
  destruct (subscript json_data "vXPolicies") as [v|e] eqn:Hs.
  - repeat split. cbn. discriminate.
  - pose proof (subscript_raises _ _ _ Hs) as He.
    destruct e; try discriminate He; repeat split; cbn; discriminate.
Qed.

Lemma malformed_shape_unknown_witness :
  (direct_lookup (by_name "p1") = false
   /\ malformed (PDict [("vXPolicies", PStr "none")]) = true
   /\ malformed (PDict [("totalCount", PInt 0)]) = true)
  /\ run (by_name "p1") (PDict [("vXPolicies", PStr "none")])
       = (Raise (UnknownError "non-list returned for json_data[vXPolicies] by Ranger"),
          init)
  /\ run (by_name "p1") (PDict [("totalCount", PInt 0)])
       = (Raise (KeyError "vXPolicies"), init)
  /\ exit_code (run (by_name "p1") (PDict [("totalCount", PInt 0)])) = ERRORS UNKNOWN.
Proof.
  split; [repeat split|]. split; [|split].
  - exact (proj1 (malformed_shape_unknown (by_name "p1")
                    (PDict [("vXPolicies", PStr "none")]) eq_refl eq_refl)).
  - exact (proj1 (proj1 (malformed_shape_unknown (by_name "p1")
                           (PDict [("totalCount", PInt 0)]) eq_refl eq_refl))).
  - exact (proj1 (proj2 (malformed_shape_unknown (by_name "p1")
                           (PDict [("totalCount", PInt 0)]) eq_refl eq_refl))).
Defined.

(** C3, as stated, fails on a value that is not a sequence and is false:
    [{"vXPolicies": null}] is reported CRITICAL, [no Ranger policies
    found!], by the test that comes before the one on the shape. *)
Lemma null_collection_critical :
  direct_lookup (by_name "p1") = false
  /\ subscript (PDict [("vXPolicies", PNone)]) "vXPolicies" = Ok PNone
  /\ isList PNone = false
  /\ run (by_name "p1") (PDict [("vXPolicies", PNone)])
       = (Raise (CriticalError "no Ranger policies found!"), init)
  /\ exit_code (run (by_name "p1") (PDict [("vXPolicies", PNone)])) = ERRORS CRITICAL
  /\ exit_code (run (by_name "p1") (PDict [("vXPolicies", PNone)])) <> ERRORS UNKNOWN.
Proof. repeat split; vm_compute; discriminate. Qed.

(** ** Resolution by name *)

(** C5: without an id and without listing, with the name [name] given and a
    collection of records that all have a name, the check scans the records
    in their order and hands to the validation the first record whose name
    is the text [name] (no record before it has that name); if no record
    has that name it fails with the CRITICAL error that quotes [name].  The
    record validated always has the name asked for. *)
Theorem resolve_by_name_first_match
  (self : options) (json_data : pyval) (records : list pyval) (name : string)
  (st : plugin) :
  truthy_opt (policy_id self) = false ->
  list_policies self = false ->
  policy_name self = Some name -> name <> "" ->
  subscript json_data "vXPolicies" = Ok (PList records) ->
  records <> [] ->
  forallb named records = true ->
  match find (has_name name) records with
  | Some r =>
      subscript r "policyName" = Ok (PStr name)
      /\ (exists before after,
             records = (before ++ r :: after)%list
             /\ Forall (fun p => subscript p "policyName" <> Ok (PStr name)) before)
      /\ parse_json self json_data st = check_policy self r st
  | None =>
      Forall (fun p => subscript p "policyName" <> Ok (PStr name)) records
      /\ parse_json self json_data st =
           (Raise (CriticalError
                     ("no matching policy found with name '" ++ name
                        ++ "' in policy list returned by Ranger" ++ host_info self)),
            st)
      /\ exit_code (parse_json self json_data st) = ERRORS CRITICAL
  end.
Proof.
  intros Hid Hl Hname Hne Hs Hrec Hnamed.
  assert (Hd : direct_lookup self = false)
    by (unfold direct_lookup; now rewrite Hid).
  assert (Hn : truthy_opt (policy_name self) = true).
  { rewrite Hname. cbn. apply negb_true_iff. now apply String.eqb_neq. }
  assert (Hp : parse_json self json_data st =
               match find (has_name name) records with
               | Some r => check_policy self r st
               | None => (Raise (no_matching_policy self), st)
               end).
  { unfold parse_json. unfold bind at 1.
    rewrite (extract_collection _ _ _ Hd), Hs. cbn [fst snd].
    rewrite Hid, (truthy_nonempty _ Hrec), Hl, Hn.
    cbn [negb when isList items is_None andb].
    unfold bind at 1. unfold ret at 1. unfold bind at 1. unfold ret at 1.
    unfold bind at 1. unfold ret at 1.
    unfold bind at 1. rewrite Hname. cbn [str_opt].
    rewrite (search_named _ _ _ Hnamed).
    destruct (find (has_name name) records) as [r|] eqn:Hfind.
    - apply find_some in Hfind as [Hin _].
      rewrite forallb_forall in Hnamed.
      rewrite (named_truthy r (Hnamed r Hin)). reflexivity.
    - reflexivity. }
  rewrite Hp. pose proof (find_first (has_name name) records) as Hfirst.
  destruct (find (has_name name) records) as [r|].
  - destruct Hfirst as (Hr & before & after & Hsplit & Hbefore).
    split; [now apply has_name_true|]. split; [|reflexivity].
    exists before, after. split; [exact Hsplit|].
    eapply Forall_impl; [|exact Hbefore]. intros p. apply has_name_false.
  - split.
    + eapply Forall_impl; [|exact Hfirst]. intros p. apply has_name_false.
    + unfold no_matching_policy. rewrite Hname. split; reflexivity.
Qed.

Lemma resolve_by_name_first_match_witness :
  (truthy_opt (policy_id (by_name "p1")) = false
   /\ list_policies (by_name "p1") = false
   /\ policy_name (by_name "p1") = Some "p1" /\ "p1" <> ""
   /\ subscript (collection three_policies) "vXPolicies" = Ok (PList three_policies)
   /\ three_policies <> []
   /\ forallb named three_policies = true)
  /\ parse_json (by_name "p1") (collection three_policies) init
       = check_policy (by_name "p1") (hdfs_policy 4 "p1") init.
Proof.
  assert (Hne : "p1" <> "") by discriminate.
  assert (Hrec : three_policies <> []) by discriminate.
  split; [repeat split; solve [exact Hne | exact Hrec | reflexivity]|].
  exact (proj2 (proj2
    (resolve_by_name_first_match (by_name "p1") (collection three_policies)
       three_policies "p1" init eq_refl eq_refl eq_refl Hne eq_refl Hrec
       eq_refl))).
Defined.

(** ** Listing *)

(** C2, as the program has it: when the policies are listed and the
    collection is a list that is not empty, the run ends unknown, never OK
    and never CRITICAL, whatever the records hold; and when every record
    has the field of each column with a value that can be formatted, the
    output is the dump of each record, the framed header, and one row per
    record, in the order of the collection, before [sys.exit] with the code
    of UNKNOWN. *)
Theorem listing_concludes_unknown
  (self : options) (json_data : pyval) (records : list pyval) :
  list_policies self = true ->
  subscript json_data "vXPolicies" = Ok (PList records) ->
  records <> [] ->
  (exit_code (run self json_data) = ERRORS UNKNOWN
   /\ exit_code (run self json_data) <> ERRORS OK
   /\ exit_code (run self json_data) <> ERRORS CRITICAL)
  /\ (forallb listable records = true ->
      let widths := measured records in
      let rows := map (row widths) records in
      run self json_data =
        (Raise (SystemExit (ERRORS UNKNOWN)),
         {| status := OK; msg := "Ranger Message Not Defined";
            stdout :=
              (map (fun r => [Json r]) records
                 ++ [border widths; header widths; border widths]
                 ++ rows)%list;
            pending := [] |})
      /\ length rows = length records
      /\ Forall (fun cells => length cells = length columns) rows).
Proof.
  intros Hl Hs Hne. unfold run.
  rewrite (parse_json_listing self json_data records init Hl Hs Hne).
  split.
  - pose proof (shape_print_policies records init) as Hshape.
    unfold bind, sys_exit, raise.
    destruct (print_policies records init) as [[[]|e] s']; cbn [fst] in Hshape.
    + cbn. repeat split; discriminate.
    + destruct e; try discriminate Hshape; cbn; repeat split; discriminate.
  - intros Hlistable. cbv zeta. unfold bind.
    rewrite (print_policies_ok records Hlistable). split; [reflexivity|].
    split; [apply length_map|].
    apply Forall_forall. intros cells Hin.
    apply in_map_iff in Hin as (r & <- & _). unfold row. apply length_map.
Qed.

Lemma listing_concludes_unknown_witness :
  (list_policies listing = true
   /\ subscript (collection two_policies) "vXPolicies" = Ok (PList two_policies)
   /\ two_policies <> []
   /\ forallb listable two_policies = true)
  /\ exit_code (run listing (collection two_policies)) = ERRORS UNKNOWN
  /\ length (map (row (measured two_policies)) two_policies) = 2.
Proof.
  assert (Hrec : two_policies <> []) by discriminate.
  split; [repeat split; solve [exact Hrec | reflexivity]|].
  destruct (listing_concludes_unknown listing (collection two_policies)
              two_policies eq_refl eq_refl Hrec) as ((Hexit & _) & Hrows).
  split; [exact Hexit|].
  exact (proj1 (proj2 (Hrows eq_refl))).
Defined.

(** C2, as stated, fails on the empty collection: the listing of
    [{"vXPolicies": []}] prints nothing and fails with the CRITICAL error
    [no Ranger policies found!]. *)
Lemma listing_empty_collection_critical :
  list_policies listing = true
  /\ run listing (collection [])
       = (Raise (CriticalError "no Ranger policies found!"), init)
  /\ exit_code (run listing (collection [])) = ERRORS CRITICAL
  /\ exit_code (run listing (collection [])) <> ERRORS UNKNOWN.
Proof. repeat split; vm_compute; discriminate. Qed.

(** ** Direct lookup of a payload that is false *)

(** C10, as the program has it: in a direct lookup (an id given, no
    listing), a payload that is false and is not [null] (an empty object,
    an empty list, an empty text, zero, [false]), or [null] when no name is
    given, makes the check fail with the CRITICAL error [no matching policy
    found with name '<name>'], where [<name>] reads [None] when no name was
    given; the error names neither the id nor [no Ranger policies
    found!]. *)
Theorem falsy_direct_payload_not_found
  (self : options) (json_data : pyval) (st : plugin) :
  truthy_opt (policy_id self) = true ->
  list_policies self = false ->
  truthy json_data = false ->
  is_None json_data = false \/ truthy_opt (policy_name self) = false ->
  parse_json self json_data st =
    (Raise (CriticalError
              ("no matching policy found with name '" ++ str_opt (policy_name self)
                 ++ "' in policy list returned by Ranger" ++ host_info self)),
     st)
  /\ exit_code (parse_json self json_data st) = ERRORS CRITICAL
  /\ (policy_name self = None ->
      parse_json self json_data st =
        (Raise (CriticalError
                  ("no matching policy found with name 'None' in policy list returned by Ranger"
                     ++ host_info self)),
         st)).
Proof.
  intros Ht Hl Hfalse Hnone.
  assert (Hd : direct_lookup self = true)
    by (unfold direct_lookup; now rewrite Ht, Hl).
  assert (E : parse_json self json_data st = (Raise (no_matching_policy self), st)).
  { rewrite (parse_json_direct _ _ _ Hd), Hfalse.
    destruct Hnone as [-> | ->]; [reflexivity | now rewrite andb_false_r]. }
  rewrite E. unfold no_matching_policy. repeat split.
  intros ->. reflexivity.
Qed.

Lemma falsy_direct_payload_not_found_witness :
  (truthy_opt (policy_id (by_id "2" None)) = true
   /\ list_policies (by_id "2" None) = false
   /\ truthy (PDict []) = false
   /\ (is_None (PDict []) = false \/ truthy_opt (policy_name (by_id "2" None)) = false))
  /\ parse_json (by_id "2" None) (PDict []) init =
       (Raise (CriticalError
                 "no matching policy found with name 'None' in policy list returned by Ranger"),
        init).
Proof.
  split; [repeat split; left; reflexivity|].
  exact (proj1 (falsy_direct_payload_not_found (by_id "2" None) (PDict []) init
                  eq_refl eq_refl eq_refl (or_introl eq_refl))).
Defined.

(** C10, as stated, fails on the payload [null] when a name is given: the
    search by name then runs over the one-element list holding [null] and
    subscripting it raises [TypeError]; no CRITICAL error is reported. *)
Lemma null_payload_with_name_type_error :
  truthy_opt (policy_id (by_id "2" (Some "p1"))) = true
  /\ list_policies (by_id "2" (Some "p1")) = false
  /\ truthy PNone = false
  /\ run (by_id "2" (Some "p1")) PNone = (Raise TypeError, init)
  /\ run (by_id "2" (Some "p1")) PNone
       <> (Raise (no_matching_policy (by_id "2" (Some "p1"))), init)
  /\ exit_code (run (by_id "2" (Some "p1")) PNone) <> ERRORS CRITICAL.
Proof. repeat split; vm_compute; discriminate. Qed.

(** ** check_policy, step by step *)


(** Every path through [check_policy]: the two fields read first, the
    assertion, the header, the three flags, the clauses. *)
Lemma check_policy_steps (self : options) (policy : pyval) (st : plugin) :
  check_policy self policy st =
    match subscript policy "policyName" with
    | Raise x => (Raise x, st)
    | Ok name_ =>
        match subscript policy "id" with
        | Raise x => (Raise x, st)
        | Ok id_ =>
            if truthy_opt (policy_id self)
               && negb (str id_ =? str_opt (policy_id self))
            then (Raise AssertionError, st)
            else
              match subscript policy "isEnabled" with
              | Raise x => (Raise x, headed self name_ id_ st)
              | Ok enabled =>
                  match subscript policy "isAuditEnabled" with
                  | Raise x => (Raise x, headed self name_ id_ st)
                  | Ok auditing =>
                      match subscript policy "isRecursive" with
                      | Raise x => (Raise x, headed self name_ id_ st)
                      | Ok recursive_ =>
                          (Ok tt,
                           validated self name_ id_ enabled auditing recursive_ st)
                      end
                  end
              end
        end
    end.
Proof.
  destruct (subscript policy "policyName") as [name_|x] eqn:Hn.
  2:{ unfold check_policy, bind, lift. now rewrite Hn. }
  destruct (subscript policy "id") as [id_|x] eqn:Hi.
  2:{ unfold check_policy. unfold bind at 1, lift at 1. rewrite Hn.
      unfold bind, lift. now rewrite Hi. }
  destruct (truthy_opt (policy_id self)
            && negb (str id_ =? str_opt (policy_id self))) eqn:Hassert.
  { apply andb_true_iff in Hassert as [Ht Hne]. apply negb_true_iff in Hne.
    unfold check_policy. unfold bind at 1, lift at 1. rewrite Hn.
    unfold bind at 1, lift at 1. rewrite Hi.
    unfold bind at 1, when, assert. now rewrite Ht, Hne. }
  assert (Hagree : id_agrees self id_).
  { intros Ht. rewrite Ht in Hassert. cbn [andb] in Hassert.
    apply negb_false_iff in Hassert. now apply String.eqb_eq. }
  assert (Hfail : forall x,
             (subscript policy "isEnabled" = Raise x
              \/ (exists e, subscript policy "isEnabled" = Ok e
                            /\ subscript policy "isAuditEnabled" = Raise x)
              \/ (exists e a, subscript policy "isEnabled" = Ok e
                              /\ subscript policy "isAuditEnabled" = Ok a
                              /\ subscript policy "isRecursive" = Raise x)) ->
             check_policy self policy st = (Raise x, headed self name_ id_ st)).
  { intros x Hx.
    unfold check_policy, headed, heading, name_mismatch. run_monad.
    rewrite Hn, Hi.
    pose proof Hagree as Hg. unfold id_agrees in Hg.
    destruct (truthy_opt (policy_id self));
      [rewrite (Hg eq_refl), String.eqb_refl|]; clear Hg;
    (destruct Hx as [He | [(e & He & Ha) | (e & a & He & Ha & Hr)]];
     (destruct (policy_name self) as [name|];
      [destruct (eq_str name_ name)|]); cbn;
     rewrite ?He, ?Ha, ?Hr; cbn;
     rewrite ?append_assoc, ?append_empty_r; cbn;
     rewrite ?append_assoc; reflexivity). }
  destruct (subscript policy "isEnabled") as [enabled|x] eqn:He;
    [|apply Hfail; now left].
  destruct (subscript policy "isAuditEnabled") as [auditing|x] eqn:Ha;
    [|apply Hfail; right; left; now exists enabled].
  destruct (subscript policy "isRecursive") as [recursive_|x] eqn:Hr;
    [|apply Hfail; right; right; now exists enabled, auditing].
  apply check_policy_validated; [repeat split; assumption | exact Hagree].
Qed.

(** ** parse_json, path by path *)

(** The search by name: its result and what it has scanned. *)
Lemma search_result (name : string) (records : list pyval) (st : plugin) :
  exists res,
    search name records st = (res, st)
    /\ match res with
       | Ok p =>
           (p = PNone
            /\ Forall (fun q => named q = true /\ has_name name q = false) records)
           \/ (exists before after,
                  records = (before ++ p :: after)%list
                  /\ has_name name p = true
                  /\ Forall (fun q => named q = true /\ has_name name q = false)
                            before)
       | Raise x =>
           exists before bad after,
             records = (before ++ bad :: after)%list
             /\ subscript bad "policyName" = Raise x
             /\ Forall (fun q => named q = true /\ has_name name q = false) before
       end.
Proof.
  induction records as [|p rest IH]; cbn [search].
  - exists (Ok PNone). split; [reflexivity|]. left. split; [reflexivity | constructor].
  - unfold bind, lift.
    destruct (subscript p "policyName") as [n|x] eqn:Hn.
    + destruct (eq_str n name) eqn:Heq.
      * exists (Ok p). split; [reflexivity|]. right. exists [], rest.
        split; [reflexivity|]. split; [|constructor].
        unfold has_name. now rewrite Hn.
      * assert (Hp : named p = true /\ has_name name p = false)
          by (unfold named, has_name; now rewrite Hn).
        destruct IH as (res & -> & Hres). exists res. split; [reflexivity|].
        destruct res as [q|x].
        -- destruct Hres as [[-> Hall] | (before & after & -> & Hq & Hb)].
           ++ left. split; [reflexivity | now constructor].
           ++ right. exists (p :: before), after.
              split; [reflexivity|]. split; [exact Hq | now constructor].
        -- destruct Hres as (before & bad & after & -> & Hbad & Hb).
           exists (p :: before), bad, after.
           split; [reflexivity|]. split; [exact Hbad | now constructor].
    + exists (Raise x). split; [reflexivity|]. exists [], p, rest.
      split; [reflexivity|]. split; [exact Hn | constructor].
Qed.

(** The search over a prefix without the name goes on to what follows. *)
Lemma search_skips (name : string) (before rest : list pyval) (st : plugin) :
  Forall (fun q => named q = true /\ has_name name q = false) before ->
  search name (before ++ rest)%list st = search name rest st.
Proof.
  induction 1 as [|q before [Hq Hn] _ IH]; cbn [app search]; [reflexivity|].
  unfold bind at 1, lift at 1. unfold named, has_name in Hq, Hn.
  destruct (subscript q "policyName") as [n|]; [|discriminate].
  now rewrite Hn.
Qed.

Lemma isList_items (v : pyval) : isList v = true -> v = PList (items v).
Proof. destruct v; try discriminate. reflexivity. Qed.

(** Without direct lookup and without listing: the search by name. *)
Lemma parse_json_by_name (self : options) (json_data : pyval) (st : plugin) :
  direct_lookup self = false -> list_policies self = false ->
  parse_json self json_data st =
    match subscript json_data "vXPolicies" with
    | Raise x => (Raise x, st)
    | Ok policy_list =>
        if negb (truthy policy_list) then (Raise no_policies_found, st)
        else if negb (isList policy_list) then (Raise (non_list self), st)
        else if truthy_opt (policy_name self) then
          match search (str_opt (policy_name self)) (items policy_list) st with
          | (Ok policy, s) =>
              if truthy policy then check_policy self policy s
              else (Raise (no_matching_policy self), s)
          | (Raise x, s) => (Raise x, s)
          end
        else (Raise (no_matching_policy self), st)
    end.
Proof.
  intros Hd Hl.
  assert (Hid : truthy_opt (policy_id self) = false).
  { unfold direct_lookup in Hd. rewrite Hl in Hd.
    now rewrite andb_true_r in Hd. }
  unfold parse_json. unfold bind at 1. rewrite (extract_collection _ _ _ Hd).
  destruct (subscript json_data "vXPolicies") as [policy_list|x]; [|reflexivity].
  cbn [fst snd]. rewrite Hid, Hl.
  destruct (truthy policy_list); cbn [negb]; [|reflexivity].
  destruct (isList policy_list); cbn [negb]; [|reflexivity].
  cbn [is_None andb when].
  unfold bind at 1. unfold ret at 1. unfold bind at 1. unfold ret at 1.
  unfold bind at 1. unfold ret at 1.
  destruct (truthy_opt (policy_name self)).
  - unfold bind at 1.
    destruct (search (str_opt (policy_name self)) (items policy_list) st)
      as [[policy|x] s]; [|reflexivity].
    unfold bind, when, raise, ret. destruct (truthy policy); reflexivity.
  - reflexivity.
Qed.

(** With listing. *)
Lemma parse_json_list (self : options) (json_data : pyval) (st : plugin) :
  list_policies self = true ->
  parse_json self json_data st =
    match subscript json_data "vXPolicies" with
    | Raise x => (Raise x, st)
    | Ok policy_list =>
        if negb (truthy policy_list) then (Raise no_policies_found, st)
        else if negb (isList policy_list) then (Raise (non_list self), st)
        else
          match print_policies (items policy_list) st with
          | (Ok _, s) => (Raise (SystemExit (ERRORS UNKNOWN)), s)
          | (Raise x, s) => (Raise x, s)
          end
    end.
Proof.
  intros Hl.
  assert (Hd : direct_lookup self = false)
    by (unfold direct_lookup; rewrite Hl; apply andb_false_r).
  unfold parse_json. unfold bind at 1. rewrite (extract_collection _ _ _ Hd).
  destruct (subscript json_data "vXPolicies") as [policy_list|x]; [|reflexivity].
  cbn [fst snd]. rewrite Hl.
  destruct (truthy policy_list); cbn [negb]; [|reflexivity].
  destruct (isList policy_list); cbn [negb]; [|reflexivity].
  cbn [when].
  unfold bind at 1. unfold ret at 1. unfold bind at 1. unfold ret at 1.
  unfold bind.
  destruct (print_policies (items policy_list) st) as [[[]|x] s]; reflexivity.
Qed.

(** The exit code of a failure that [parse_json] can end with. *)
Lemma expected_failure_exit (self : options) (e : exn) (s : plugin) :
  expected_failure self e ->
  exit_code (Raise e, s) = ERRORS UNKNOWN \/ exit_code (Raise e, s) = ERRORS CRITICAL.
Proof.
  intros [H | [[-> _] | [-> | [-> | [[-> _] | [-> _]]]]]];
    try (now left); try (now right).
  destruct e; try discriminate H; now left.
Qed.

Lemma check_policy_failures (self : options) (policy : pyval) (st : plugin) :
  match fst (check_policy self policy st) with
  | Ok _ => True
  | Raise e =>
      shape_error e = true
      \/ (e = AssertionError /\ truthy_opt (policy_id self) = true)
  end.
Proof.
  rewrite check_policy_steps.
  destruct (subscript policy "policyName") as [name_|] eqn:Hn;
    [|left; exact (subscript_raises _ _ _ Hn)].
  destruct (subscript policy "id") as [id_|] eqn:Hi;
    [|left; exact (subscript_raises _ _ _ Hi)].
  destruct (truthy_opt (policy_id self)) eqn:Ht; cbn [andb].
  - destruct (negb (str id_ =? str_opt (policy_id self))); [right; now split|].
    destruct (subscript policy "isEnabled") eqn:He;
      [|left; exact (subscript_raises _ _ _ He)].
    destruct (subscript policy "isAuditEnabled") eqn:Ha;
      [|left; exact (subscript_raises _ _ _ Ha)].
    destruct (subscript policy "isRecursive") eqn:Hr;
      [exact I|left; exact (subscript_raises _ _ _ Hr)].
  - destruct (subscript policy "isEnabled") eqn:He;
      [|left; exact (subscript_raises _ _ _ He)].
    destruct (subscript policy "isAuditEnabled") eqn:Ha;
      [|left; exact (subscript_raises _ _ _ Ha)].
    destruct (subscript policy "isRecursive") eqn:Hr;
      [exact I|left; exact (subscript_raises _ _ _ Hr)].
Qed.

Lemma parse_json_failures (self : options) (json_data : pyval) (st : plugin) :
  match fst (parse_json self json_data st) with
  | Ok _ => list_policies self = false
  | Raise e => expected_failure self e
  end.
Proof.
  unfold expected_failure.
  destruct (list_policies self) eqn:Hl.
  - rewrite (parse_json_list _ _ _ Hl).
    destruct (subscript json_data "vXPolicies") as [pl|x] eqn:Hs;
      [|left; exact (subscript_raises _ _ _ Hs)].
    destruct (truthy pl); cbn [negb]; [|right; right; now left].
    destruct (isList pl); cbn [negb]; [|right; right; right; now left].
    pose proof (shape_print_policies (items pl) st) as Hshape.
    destruct (print_policies (items pl) st) as [[[]|x] s]; cbn [fst] in *.
    + right; right; right; right; right. now split.
    + now left.
  - destruct (direct_lookup self) eqn:Hd.
    + rewrite (parse_json_direct _ _ _ Hd).
      destruct (truthy json_data).
      * pose proof (check_policy_failures self json_data st) as Hc.
        destruct (fst (check_policy self json_data st)); [reflexivity|].
        destruct Hc as [Hc | [-> _]]; [now left | right; left; now split].
      * destruct (is_None json_data && truthy_opt (policy_name self));
          cbn [fst]; [now left | right; right; right; right; left; now split].
    + rewrite (parse_json_by_name _ _ _ Hd Hl).
      destruct (subscript json_data "vXPolicies") as [pl|x] eqn:Hs;
        [|left; exact (subscript_raises _ _ _ Hs)].
      destruct (truthy pl); cbn [negb]; [|right; right; now left].
      destruct (isList pl); cbn [negb]; [|right; right; right; now left].
      destruct (truthy_opt (policy_name self));
        [|right; right; right; right; left; now split].
      destruct (search_result (str_opt (policy_name self)) (items pl) st)
        as (res & -> & Hres).
      destruct res as [policy|x].
      * destruct (truthy policy);
          [|right; right; right; right; left; now split].
        pose proof (check_policy_failures self policy st) as Hc.
        destruct (fst (check_policy self policy st)); [reflexivity|].
        destruct Hc as [Hc | [-> Ht]]; [now left|].
        unfold direct_lookup in Hd. rewrite Ht, Hl in Hd. discriminate Hd.
      * destruct Hres as (before & bad & after & _ & Hbad & _).
        left. exact (subscript_raises _ _ _ Hbad).
Qed.

(** ** What a computation leaves alone *)

Lemma escalates_refl (s : plugin) : escalates s s.
Proof. repeat split; now left. Qed.

Lemma escalates_trans (s1 s2 s3 : plugin) :
  escalates s1 s2 -> escalates s2 s3 -> escalates s1 s3.
Proof.
  intros (H1 & O1 & P1) (H2 & O2 & P2). repeat split; try congruence.
  destruct H2 as [H2|H2]; [rewrite H2; exact H1 | now right].
Qed.

Lemma escalates_headed (self : options) (name_ id_ : pyval) (st : plugin) :
  escalates st (headed self name_ id_ st).
Proof.
  unfold headed. repeat split. cbn [status].
  destruct (name_mismatch self name_); [now right | now left].
Qed.

Lemma escalates_validated
  (self : options) (name_ id_ enabled auditing recursive_ : pyval) (st : plugin) :
  escalates st (validated self name_ id_ enabled auditing recursive_ st).
Proof.
  unfold validated. repeat split. cbn [status].
  match goal with |- context [if ?c then _ else _] => destruct c end;
    [now right | now left].
Qed.

Lemma check_policy_keeps (self : options) (policy : pyval) :
  keeps escalates (check_policy self policy).
Proof.
  intros st. rewrite check_policy_steps.
  destruct (subscript policy "policyName") as [name_|]; [|apply escalates_refl].
  destruct (subscript policy "id") as [id_|]; [|apply escalates_refl].
  destruct (truthy_opt (policy_id self)
            && negb (str id_ =? str_opt (policy_id self)));
    [apply escalates_refl|].
  destruct (subscript policy "isEnabled"); [|apply escalates_headed].
  destruct (subscript policy "isAuditEnabled"); [|apply escalates_headed].
  destruct (subscript policy "isRecursive");
    [apply escalates_validated | apply escalates_headed].
Qed.

Lemma parse_json_keeps (self : options) (json_data : pyval) :
  list_policies self = false ->
  keeps escalates (parse_json self json_data).
Proof.
  intros Hl st. destruct (direct_lookup self) eqn:Hd.
  - rewrite (parse_json_direct _ _ _ Hd).
    destruct (truthy json_data); [apply check_policy_keeps|].
    destruct (is_None json_data && truthy_opt (policy_name self));
      apply escalates_refl.
  - rewrite (parse_json_by_name _ _ _ Hd Hl).
    destruct (subscript json_data "vXPolicies") as [pl|]; [|apply escalates_refl].
    destruct (truthy pl); cbn [negb]; [|apply escalates_refl].
    destruct (isList pl); cbn [negb]; [|apply escalates_refl].
    destruct (truthy_opt (policy_name self)); [|apply escalates_refl].
    destruct (search_result (str_opt (policy_name self)) (items pl) st)
      as (res & -> & _).
    destruct res as [policy|]; [|apply escalates_refl].
    destruct (truthy policy); [apply check_policy_keeps | apply escalates_refl].
Qed.

Lemma prints_refl (s : plugin) : prints s s.
Proof. repeat split. exists []. now rewrite app_nil_r. Qed.

Lemma prints_trans (s1 s2 s3 : plugin) :
  prints s1 s2 -> prints s2 s3 -> prints s1 s3.
Proof.
  intros (H1 & M1 & m1 & O1) (H2 & M2 & m2 & O2).
  repeat split; try congruence.
  exists (m1 ++ m2)%list. now rewrite O2, O1, app_assoc.
Qed.

Lemma keeps_bind {A B : Type} (R : plugin -> plugin -> Prop)
  (m : M A) (k : A -> M B) :
  (forall s1 s2 s3, R s1 s2 -> R s2 s3 -> R s1 s3) ->
  keeps R m -> (forall a, keeps R (k a)) -> keeps R (bind m k).
Proof.
  intros Htrans Hm Hk s. unfold bind. specialize (Hm s).
  destruct (m s) as [[a|e] s']; cbn [snd] in *; [|exact Hm].
  eapply Htrans; [exact Hm | apply Hk].
Qed.

Lemma prints_lift {A : Type} (r : result A) : keeps prints (lift r).
Proof. intros s. apply prints_refl. Qed.

Lemma prints_ret {A : Type} (a : A) : keeps prints (ret a).
Proof. intros s. apply prints_refl. Qed.

Lemma prints_print_end (p : piece) : keeps prints (print_end p).
Proof. intros s. repeat split. exists []. cbn. now rewrite app_nil_r. Qed.

Lemma prints_print_newline : keeps prints print_newline.
Proof. intros s. repeat split. now exists [pending s]. Qed.

Lemma prints_print (p : piece) : keeps prints (print p).
Proof.
  apply keeps_bind; [exact prints_trans | apply prints_print_end|].
  intros _. apply prints_print_newline.
Qed.

Create HintDb prints.
#[local] Hint Resolve prints_lift prints_ret prints_print_end
  prints_print_newline prints_print : prints.

Ltac prints_step :=
  repeat (apply keeps_bind; [exact prints_trans | auto with prints | intro]);
  auto with prints.

Lemma prints_measure_record (r : pyval) (keys : list string) :
  forall widths, keeps prints (measure_record keys r widths).
Proof.
  induction keys as [|col keys IH]; intros widths; cbn [measure_record].
  - apply prints_ret.
  - destruct (col =? "Description"); [apply IH|]. prints_step.
Qed.

Lemma prints_measure (policy_list : list pyval) :
  forall widths, keeps prints (measure policy_list widths).
Proof.
  induction policy_list as [|r rest IH]; intros widths; cbn [measure].
  - apply prints_ret.
  - apply keeps_bind; [exact prints_trans | apply prints_print | intros _].
    apply keeps_bind;
      [exact prints_trans | apply prints_measure_record | intros w; apply IH].
Qed.

Lemma prints_sum_widths (widths : widths_t) (headings : list string) :
  forall total, keeps prints (sum_widths headings widths total).
Proof.
  induction headings as [|h rest IH]; intros total; cbn [sum_widths];
    prints_step.
Qed.

Lemma prints_print_headings (widths : widths_t) (headings : list string) :
  keeps prints (print_headings headings widths).
Proof.
  induction headings as [|h rest IH]; cbn [print_headings]; prints_step.
Qed.

Lemma prints_print_cells (widths : widths_t) (r : pyval) (cs : list string) :
  keeps prints (print_cells cs r widths).
Proof.
  induction cs as [|c rest IH]; cbn [print_cells]; prints_step.
Qed.

Lemma prints_print_rows (widths : widths_t) (policy_list : list pyval) :
  keeps prints (print_rows policy_list widths).
Proof.
  induction policy_list as [|r rest IH]; cbn [print_rows].
  - apply prints_ret.
  - apply keeps_bind; [exact prints_trans | apply prints_print_cells | intros _].
    apply keeps_bind;
      [exact prints_trans | apply prints_print_newline | intros _; exact IH].
Qed.

Lemma prints_print_policies (policy_list : list pyval) :
  keeps prints (print_policies policy_list).
Proof.
  unfold print_policies.
  apply keeps_bind; [exact prints_trans | apply prints_measure | intros widths].
  apply keeps_bind; [exact prints_trans | apply prints_sum_widths | intros total].
  apply keeps_bind; [exact prints_trans | apply prints_print | intros _].
  apply keeps_bind; [exact prints_trans | apply prints_print_headings | intros _].
  apply keeps_bind; [exact prints_trans | apply prints_print_newline | intros _].
  apply keeps_bind; [exact prints_trans | apply prints_print | intros _].
  apply prints_print_rows.
Qed.

(** ** The widths of the columns *)













(** ** The lengths of the cells *)

Lemma length_append (a b : string) :
  String.length (a ++ b) = String.length a + String.length b.
Proof. induction a as [|c a IH]; cbn; [reflexivity | now rewrite IH]. Qed.





(** ** A listing that cannot be measured *)

Lemma measure_record_unmeasurable (r : pyval) (keys : list string) :
  forall widths s,
    existsb
      (fun col =>
         negb (col =? "Description")
         && match getitem col cols with
            | Ok field =>
                match subscript r field with
                | Ok _ => false
                | Raise _ => true
                end
            | Raise _ => true
            end) keys = true ->
    exists x, measure_record keys r widths s = (Raise x, s).
Proof.
  induction keys as [|c keys IH]; intros widths s H;
    cbn [measure_record existsb] in *; [discriminate H|].
  destruct (c =? "Description"); cbn [negb andb orb] in H; [now apply IH|].
  unfold bind at 1, lift at 1.
  destruct (getitem c cols) as [field|x]; [|now exists x].
  unfold bind at 1, lift at 1.
  destruct (subscript r field) as [v|x]; [|now exists x].
  unfold bind at 1, lift at 1.
  destruct (getitem c _) as [w|x]; [|now exists x].
  cbn [orb] in H. now apply IH.
Qed.

Lemma measure_app (l1 l2 : list pyval) :
  forall widths s,
    measure (l1 ++ l2)%list widths s =
      match measure l1 widths s with
      | (Ok widths', s') => measure l2 widths' s'
      | (Raise x, s') => (Raise x, s')
      end.
Proof.
  induction l1 as [|r l1 IH]; intros widths s; cbn [app measure].
  - reflexivity.
  - unfold bind at 1 3.
    destruct (print (Json r) s) as [[[]|x] s1]; [|reflexivity].
    unfold bind at 1 2.
    destruct (measure_record (map fst cols) r widths s1) as [[w1|x] s2];
      [apply IH | reflexivity].
Qed.

(** ** Further properties: validation *)

Lemma check_policy_returns (self : options) (policy : pyval) (st st' : plugin) :
  check_policy self policy st = (Ok tt, st') ->
  exists name_ id_ enabled auditing recursive_,
    fields policy name_ id_ enabled auditing recursive_
    /\ id_agrees self id_
    /\ st' = validated self name_ id_ enabled auditing recursive_ st.
Proof.
  rewrite check_policy_steps.
  destruct (subscript policy "policyName") as [name_|] eqn:Hn; [|discriminate].
  destruct (subscript policy "id") as [id_|] eqn:Hi; [|discriminate].
  destruct (truthy_opt (policy_id self)
            && negb (str id_ =? str_opt (policy_id self))) eqn:Hassert;
    [discriminate|].
  destruct (subscript policy "isEnabled") as [enabled|] eqn:He; [|discriminate].
  destruct (subscript policy "isAuditEnabled") as [auditing|] eqn:Ha;
    [|discriminate].
  destruct (subscript policy "isRecursive") as [recursive_|] eqn:Hr;
    [|discriminate].
  intros [= <-]. exists name_, id_, enabled, auditing, recursive_.
  split; [repeat split; assumption|]. split; [|reflexivity].
  intros Ht. rewrite Ht in Hassert. cbn [andb] in Hassert.
  apply negb_false_iff in Hassert. now apply String.eqb_eq.
Qed.

Lemma passes_status (self : options) (name_ enabled auditing recursive_ : pyval) :
  (name_mismatch self name_ || negb (truthy enabled)
   || audit_fails self auditing || recursive_fails self recursive_) = false
  <-> passes self name_ enabled auditing recursive_.
Proof.
  unfold passes, audit_fails, recursive_fails.
  destruct (name_mismatch self name_), (truthy enabled), (truthy auditing),
    (no_audit self), (recursive self), (truthy recursive_); cbn;
    intuition congruence.
Qed.



(** X2: a check never lowers the status and never prints.  Whatever the
    policy holds, and also when it raises, [check_policy] leaves the status
    as it was or raises it to CRITICAL, and leaves standard output alone;
    so does [parse_json] when the policies are not listed.  A status that
    is CRITICAL stays CRITICAL. *)
Theorem check_only_escalates
  (self : options) (json_data policy : pyval) (st : plugin) :
  let checked := snd (check_policy self policy st) in
  let parsed := snd (parse_json self json_data st) in
  ((status checked = status st \/ status checked = CRITICAL)
   /\ stdout checked = stdout st /\ pending checked = pending st)
  /\ (list_policies self = false ->
      (status parsed = status st \/ status parsed = CRITICAL)
      /\ stdout parsed = stdout st /\ pending parsed = pending st
      /\ (status st = CRITICAL -> status parsed = CRITICAL)).
Proof.
  cbv zeta. split.
  - exact (check_policy_keeps self policy st).
  - intros Hl.
    destruct (parse_json_keeps self json_data Hl st) as (Hs & Ho & Hp).
    repeat split; try assumption.
    intros Hc. destruct Hs as [Hs|Hs]; congruence.
Qed.

Lemma check_only_escalates_witness :
  list_policies (by_name "p1") = false
  /\ status (snd (parse_json (by_name "p1") (collection [p1]) already_critical))
       = CRITICAL.
Proof.
  split; [reflexivity|].
  exact (proj2 (proj2 (proj2
    (proj2 (check_only_escalates (by_name "p1") (collection [p1]) PNone
              already_critical) eq_refl))) eq_refl).
Defined.

(** X3: a policy that lacks one of the five fields is never reported
    CRITICAL, whatever its other fields show.  [check_policy] on an object
    raises [KeyError] for the first field missing in the order
    [policyName], [id], [isEnabled], [isAuditEnabled], [isRecursive], or
    [AssertionError] before it when the id disagrees and the field missing
    is a flag; either way the run ends unknown. *)
Theorem missing_field_key_error
  (self : options) (d : list (string * pyval)) (key : string) (st : plugin) :
  find (missing d) read_order = Some key ->
  (fst (check_policy self (PDict d) st) = Raise (KeyError key)
   \/ fst (check_policy self (PDict d) st) = Raise AssertionError)
  /\ ((forall id_, lookup "id" d = Some id_ -> id_agrees self id_) ->
      fst (check_policy self (PDict d) st) = Raise (KeyError key))
  /\ exit_code (check_policy self (PDict d) st) = ERRORS UNKNOWN.
Proof.
  intros Hfind. rewrite check_policy_steps.
  unfold read_order, missing in Hfind. cbn [find subscript] in *.
  destruct (lookup "policyName" d) as [name_|];
    [|injection Hfind as <-; cbn; repeat split; now left].
  destruct (lookup "id" d) as [id_|];
    [|injection Hfind as <-; cbn; repeat split; now left].
  assert (Hagree : (forall i, Some id_ = Some i -> id_agrees self i) ->
                   truthy_opt (policy_id self)
                   && negb (str id_ =? str_opt (policy_id self)) = false).
  { intros H. specialize (H id_ eq_refl). unfold id_agrees in H.
    destruct (truthy_opt (policy_id self)); [|reflexivity].
    rewrite (H eq_refl). now rewrite String.eqb_refl. }
  destruct (truthy_opt (policy_id self)
            && negb (str id_ =? str_opt (policy_id self))) eqn:Hassert.
  { cbn. split; [now right|]. split; [|reflexivity].
    intros H. specialize (Hagree H). discriminate Hagree. }
  destruct (lookup "isEnabled" d) as [enabled|];
    [|injection Hfind as <-; cbn; repeat split; now left].
  destruct (lookup "isAuditEnabled" d) as [auditing|];
    [|injection Hfind as <-; cbn; repeat split; now left].
  destruct (lookup "isRecursive" d) as [recursive_|];
    [discriminate Hfind|injection Hfind as <-; cbn; repeat split; now left].
Qed.

Lemma missing_field_key_error_witness :
  find (missing no_recursive_flag) read_order = Some "isRecursive"
  /\ fst (check_policy (by_id "2" (Some "p1")) (PDict no_recursive_flag) init)
       = Raise (KeyError "isRecursive")
  /\ exit_code (check_policy (by_id "2" (Some "p1")) (PDict no_recursive_flag) init)
       = ERRORS UNKNOWN.
Proof.
  split; [reflexivity|].
  destruct (missing_field_key_error (by_id "2" (Some "p1")) no_recursive_flag
              "isRecursive" init eq_refl) as (_ & Hkey & Hexit).
  split; [|exact Hexit].
  apply Hkey. intros id_ [= <-] _. reflexivity.
Defined.

(** ** Further properties: resolution *)

(** X4: the search by name stops at the first record it can decide.
    Without direct lookup and listing, when the records before [r] all have
    a name other than the one asked for: if [r] has that name it is the
    policy validated, whatever follows it in the collection (records after
    the match are never read, they may even be malformed); and if [r] has
    no name at all (no [policyName], or no object) the check fails with that
    [KeyError] or [TypeError] and ends unknown, even if a later record has
    the name. *)
Theorem search_stops_at_first_match
  (self : options) (json_data r : pyval) (before after : list pyval)
  (name : string) (st : plugin) :
  truthy_opt (policy_id self) = false ->
  list_policies self = false ->
  policy_name self = Some name -> name <> "" ->
  subscript json_data "vXPolicies" = Ok (PList (before ++ r :: after)) ->
  Forall (fun p => named p = true /\ has_name name p = false) before ->
  (subscript r "policyName" = Ok (PStr name) ->
   parse_json self json_data st = check_policy self r st)
  /\ (forall x, subscript r "policyName" = Raise x ->
      parse_json self json_data st = (Raise x, st)
      /\ exit_code (parse_json self json_data st) = ERRORS UNKNOWN).
Proof.
  intros Hid Hl Hname Hne Hs Hbefore.
  assert (Hd : direct_lookup self = false)
    by (unfold direct_lookup; now rewrite Hid).
  assert (Hn : truthy_opt (policy_name self) = true).
  { rewrite Hname. cbn. apply negb_true_iff. now apply String.eqb_neq. }
  assert (Hp : parse_json self json_data st =
               match search name (r :: after) st with
               | (Ok policy, s) =>
                   if truthy policy then check_policy self policy s
                   else (Raise (no_matching_policy self), s)
               | (Raise x, s) => (Raise x, s)
               end).
  { rewrite (parse_json_by_name _ _ _ Hd Hl), Hs, Hn, Hname.
    cbn [str_opt items isList negb].
    assert (Ht : truthy (PList (before ++ r :: after)) = true)
      by (apply truthy_nonempty; destruct before; discriminate).
    rewrite Ht. cbn [negb]. now rewrite (search_skips _ _ _ _ Hbefore). }
  rewrite Hp. cbn [search]. unfold bind at 1 3, lift at 1 2. split.
  - intros Hr. rewrite Hr. cbn [eq_str]. rewrite String.eqb_refl.
    unfold ret. rewrite (named_truthy r); [reflexivity|].
    unfold named. now rewrite Hr.
  - intros x Hr. rewrite Hr. split; [reflexivity|].
    pose proof (subscript_raises _ _ _ Hr) as Hx.
    destruct x; try discriminate Hx; reflexivity.
Qed.

Lemma search_stops_at_first_match_witness :
  (truthy_opt (policy_id (by_name "p1")) = false
   /\ list_policies (by_name "p1") = false
   /\ policy_name (by_name "p1") = Some "p1" /\ "p1" <> ""
   /\ subscript (collection ([hdfs_policy 3 "P1"] ++ PInt 7 :: [hdfs_policy 4 "p1"]))
        "vXPolicies"
      = Ok (PList ([hdfs_policy 3 "P1"] ++ PInt 7 :: [hdfs_policy 4 "p1"]))
   /\ Forall (fun p => named p = true /\ has_name "p1" p = false)
             [hdfs_policy 3 "P1"])
  /\ parse_json (by_name "p1")
       (collection ([hdfs_policy 3 "P1"] ++ PInt 7 :: [hdfs_policy 4 "p1"])) init
     = (Raise TypeError, init)
  /\ parse_json (by_name "p1")
       (collection ([hdfs_policy 3 "P1"] ++ hdfs_policy 4 "p1" :: [PInt 7])) init
     = check_policy (by_name "p1") (hdfs_policy 4 "p1") init.
Proof.
  assert (Hne : "p1" <> "") by discriminate.
  assert (Hb : Forall (fun p => named p = true /\ has_name "p1" p = false)
                 [hdfs_policy 3 "P1"])
    by (constructor; [split; reflexivity | constructor]).
  split; [repeat split; solve [exact Hne | exact Hb | reflexivity]|]. split.
  - exact (proj1 (proj2
      (search_stops_at_first_match (by_name "p1")
         (collection ([hdfs_policy 3 "P1"] ++ PInt 7 :: [hdfs_policy 4 "p1"]))
         (PInt 7) [hdfs_policy 3 "P1"] [hdfs_policy 4 "p1"] "p1" init
         eq_refl eq_refl eq_refl Hne eq_refl Hb) TypeError eq_refl)).
  - exact (proj1
      (search_stops_at_first_match (by_name "p1")
         (collection ([hdfs_policy 3 "P1"] ++ hdfs_policy 4 "p1" :: [PInt 7]))
         (hdfs_policy 4 "p1") [hdfs_policy 3 "P1"] [PInt 7] "p1" init
         eq_refl eq_refl eq_refl Hne eq_refl Hb) eq_refl).
Defined.

(** X5: the ways [parse_json] ends.  It returns only when the policies are
    not listed; a listing always ends on an exception.  When it raises, the
    exception is the [KeyError] or [TypeError] of a payload of the wrong
    shape, the [AssertionError] of a direct lookup, one of its own three
    errors (no policies, non-list, no matching policy), or the [SystemExit]
    with the code of UNKNOWN that ends a listing; so a run exits with the
    code of OK, CRITICAL or UNKNOWN and with no other. *)
Theorem parse_json_outcomes (self : options) (json_data : pyval) (st : plugin) :
  match fst (parse_json self json_data st) with
  | Ok _ => list_policies self = false
  | Raise e =>
      expected_failure self e
      /\ (exit_code (parse_json self json_data st) = ERRORS UNKNOWN
          \/ exit_code (parse_json self json_data st) = ERRORS CRITICAL)
  end
  /\ (exit_code (run self json_data) = ERRORS OK
      \/ exit_code (run self json_data) = ERRORS CRITICAL
      \/ exit_code (run self json_data) = ERRORS UNKNOWN).
Proof.
  split.
  - pose proof (parse_json_failures self json_data st) as H.
    destruct (parse_json self json_data st) as [[u|e] s]; cbn [fst] in *;
      [exact H|].
    split; [exact H | exact (expected_failure_exit self e s H)].
  - unfold run. pose proof (parse_json_failures self json_data init) as H.
    destruct (parse_json self json_data init) as [[u|e] s]; cbn [fst] in *.
    + cbn [exit_code]. destruct (status s); auto.
    + destruct (expected_failure_exit self e s H) as [E|E]; rewrite E; auto.
Qed.

(** X6: a run exits with the code of OK exactly when the policy that
    [parse_json] resolves (the payload in a direct lookup, otherwise the
    first record of the collection with the name asked for, after records
    that all have another name) has its five fields, agrees with the id
    given, and passes every condition: the name, [isEnabled], auditing
    unless waived, recursion if required. *)
Theorem ok_iff_compliant (self : options) (json_data : pyval) :
  exit_code (run self json_data) = ERRORS OK
  <-> exists policy name_ id_ enabled auditing recursive_,
        resolves self json_data policy
        /\ fields policy name_ id_ enabled auditing recursive_
        /\ id_agrees self id_
        /\ passes self name_ enabled auditing recursive_.
Proof.
  unfold run. split.
  - intros Hexit.
    pose proof (parse_json_failures self json_data init) as Hfail.
    destruct (parse_json self json_data init) as [[[]|e] s'] eqn:E;
      cbn [fst] in Hfail.
    2:{ destruct (expected_failure_exit self e s' Hfail) as [H|H];
          rewrite H in Hexit; discriminate Hexit. }
    assert (Hok : status s' = OK)
      by (cbn [exit_code] in Hexit; destruct (status s'); try discriminate;
          reflexivity).
    assert (Hres : exists policy,
               resolves self json_data policy
               /\ check_policy self policy init = (Ok tt, s')).
    { destruct (direct_lookup self) eqn:Hd.
      - rewrite (parse_json_direct _ _ _ Hd) in E.
        destruct (truthy json_data).
        + exists json_data. split; [left; now split | exact E].
        + destruct (is_None json_data && truthy_opt (policy_name self));
            discriminate E.
      - rewrite (parse_json_by_name _ _ _ Hd Hfail) in E.
        destruct (subscript json_data "vXPolicies") as [pl|] eqn:Hs;
          [|discriminate E].
        destruct (truthy pl); cbn [negb] in E; [|discriminate E].
        destruct (isList pl) eqn:Hlist; cbn [negb] in E; [|discriminate E].
        destruct (truthy_opt (policy_name self)) eqn:Hn; [|discriminate E].
        destruct (policy_name self) as [name|] eqn:Hname; [|discriminate Hn].
        cbn [str_opt] in E.
        destruct (search_result name (items pl) init) as (res & Hsearch & Hres).
        rewrite Hsearch in E. destruct res as [policy|]; [|discriminate E].
        destruct (truthy policy) eqn:Ht; [|discriminate E].
        exists policy. split; [|exact E]. right.
        split; [exact Hd|]. split; [exact Hfail|].
        destruct Hres as [[-> _] | (before & after & Hsplit & Hp & Hb)];
          [discriminate Ht|].
        exists (items pl), name, before, after.
        split; [now rewrite <- (isList_items pl Hlist)|].
        split; [exact Hname|].
        split; [intros ->; discriminate Hn|].
        split; [exact Hsplit|]. split; [now apply has_name_true | exact Hb]. }
    destruct Hres as (policy & Hres & Hcheck).
    destruct (check_policy_returns _ _ _ _ Hcheck)
      as (name_ & id_ & enabled & auditing & recursive_ & Hf & Hid & ->).
    exists policy, name_, id_, enabled, auditing, recursive_.
    split; [exact Hres | split; [exact Hf | split; [exact Hid|]]].
    cbn [status validated init] in Hok. apply passes_status.
    destruct (name_mismatch self name_ || negb (truthy enabled)
              || audit_fails self auditing || recursive_fails self recursive_);
      [discriminate Hok | reflexivity].
  - intros (policy & name_ & id_ & enabled & auditing & recursive_
            & Hres & Hf & Hid & Hpass).
    assert (Htruthy : truthy policy = true).
    { apply named_truthy. unfold named. destruct Hf as (-> & _). reflexivity. }
    assert (E : parse_json self json_data init = check_policy self policy init).
    { destruct Hres as [[Hd ->] | (Hd & Hl & records & name & before & after
                                   & Hs & Hname & Hne & -> & Hp & Hb)].
      - rewrite (parse_json_direct _ _ _ Hd). now rewrite Htruthy.
      - rewrite (parse_json_by_name _ _ _ Hd Hl), Hs, Hname.
        cbn [str_opt items isList negb truthy_opt].
        assert (Ht : truthy (PList (before ++ policy :: after)) = true)
          by (apply truthy_nonempty; destruct before; discriminate).
        rewrite Ht. cbn [negb].
        apply String.eqb_neq in Hne. rewrite Hne. cbn [negb].
        rewrite (search_skips _ _ _ _ Hb). cbn [search].
        unfold bind, lift. rewrite Hp. cbn [eq_str].
        rewrite String.eqb_refl. unfold ret. now rewrite Htruthy. }
    rewrite E, (check_policy_validated self policy _ _ _ _ _ init Hf Hid).
    cbn [exit_code status init].
    apply passes_status in Hpass. now rewrite Hpass.
Qed.

(** ** Further properties: the listing *)

(** X7: a listing only prints.  Whatever the policies hold, and also when
    it raises, [print_policies] leaves the status and the message as they
    were and only adds lines after those already printed; in a listing
    [parse_json] does the same and never returns: it always ends on an
    exception. *)
Theorem listing_only_prints
  (self : options) (json_data : pyval) (policy_list : list pyval) (st : plugin) :
  let printed := snd (print_policies policy_list st) in
  let listed := snd (parse_json self json_data st) in
  (status printed = status st /\ msg printed = msg st
   /\ exists more, stdout printed = (stdout st ++ more)%list)
  /\ (list_policies self = true ->
      status listed = status st /\ msg listed = msg st
      /\ (exists more, stdout listed = (stdout st ++ more)%list)
      /\ exists e, fst (parse_json self json_data st) = Raise e).
Proof.
  cbv zeta. split; [exact (prints_print_policies policy_list st)|].
  intros Hl.
  pose proof (parse_json_failures self json_data st) as Hfail.
  rewrite (parse_json_list _ _ _ Hl) in *.
  assert (Hsame : status st = status st /\ msg st = msg st
                  /\ exists more, stdout st = (stdout st ++ more)%list)
    by exact (prints_refl st).
  destruct (subscript json_data "vXPolicies") as [pl|x];
    [|cbn [fst snd]; destruct Hsame as (A & B & C); eauto].
  destruct (truthy pl); cbn [negb];
    [|cbn [fst snd]; destruct Hsame as (A & B & C); eauto].
  destruct (isList pl); cbn [negb];
    [|cbn [fst snd]; destruct Hsame as (A & B & C); eauto].
  pose proof (prints_print_policies (items pl) st) as (A & B & C).
  destruct (print_policies (items pl) st) as [[[]|x] s]; cbn [fst snd] in *;
    eauto.
Qed.

Lemma listing_only_prints_witness :
  list_policies listing = true
  /\ status (snd (parse_json listing (collection two_policies) already_critical))
       = CRITICAL
  /\ exists e,
       fst (parse_json listing (collection two_policies) already_critical)
         = Raise e.
Proof.
  split; [reflexivity|].
  destruct (proj2 (listing_only_prints listing (collection two_policies) []
                     already_critical) eq_refl) as (Hs & _ & _ & He).
  split; [exact Hs | exact He].
Defined.





(** X10: a record that cannot be measured stops the listing before the
    table.  When the records before it can be listed and it lacks the value
    of a column other than the description, [print_policies] prints the
    dumps of the records up to and including it, then raises the [KeyError]
    or [TypeError] of that record; no border, header or row is printed,
    whatever the records after it hold. *)
Theorem unmeasurable_record_stops_listing
  (good rest : list pyval) (bad : pyval) :
  forallb listable good = true ->
  unmeasurable bad = true ->
  exists x,
    print_policies (good ++ bad :: rest)%list init =
      (Raise x,
       {| status := OK; msg := "Ranger Message Not Defined";
          stdout := map (fun r => [Json r]) (good ++ [bad])%list;
          pending := [] |})
    /\ shape_error x = true.
Proof.
  intros Hgood Hbad.
  destruct (measure_ok good Hgood initial_widths init complete_initial_widths
              eq_refl) as (w1 & E1 & _).
  assert (E : exists x,
             measure (good ++ bad :: rest)%list initial_widths init =
               (Raise x,
                {| status := OK; msg := msg init;
                   stdout := map (fun r => [Json r]) (good ++ [bad])%list;
                   pending := [] |})).
  { rewrite measure_app, E1. cbn [measure].
    unfold bind at 1. rewrite print_piece by reflexivity.
    unfold bind at 1.
    match goal with
    | |- context [measure_record ?k bad w1 ?s1] =>
        destruct (measure_record_unmeasurable bad k w1 s1 Hbad) as (x & ->)
    end.
    exists x. cbn [status msg stdout pending init app].
    now rewrite map_app. }
  destruct E as (x & E). exists x. split.
  - unfold print_policies. unfold bind at 1. now rewrite E.
  - pose proof (shape_measure (good ++ bad :: rest)%list initial_widths init) as H.
    now rewrite E in H.
Qed.

Lemma unmeasurable_record_stops_listing_witness :
  (forallb listable [hdfs_policy 3 "tmp"] = true
   /\ unmeasurable no_repository_type = true)
  /\ exists x,
       print_policies
         ([hdfs_policy 3 "tmp"] ++ no_repository_type :: [hdfs_policy 14 "warehouse"])%list
         init =
         (Raise x,
          {| status := OK; msg := "Ranger Message Not Defined";
             stdout := [[Json (hdfs_policy 3 "tmp")]; [Json no_repository_type]];
             pending := [] |})
       /\ shape_error x = true.
Proof.
  split; [split; reflexivity|].
  exact (unmeasurable_record_stops_listing [hdfs_policy 3 "tmp"]
           [hdfs_policy 14 "warehouse"] no_repository_type eq_refl eq_refl).
Defined.

(** ** Further properties: the options *)

(** X11: [process_options] and [parse_json] agree on the mode.  The options
    are refused, with the usage message, exactly when the policies are not
    listed and neither a name nor an id is given (an empty text counts as
    not given).  Otherwise the request path gets the id appended exactly
    when [parse_json] will take the payload for the policy itself: with an
    id and no listing the path is the one of that policy and the payload is
    the policy; in every other case the path is unchanged and the policies
    are read from [vXPolicies]. *)
Theorem process_options_modes
  (verbose_ : bool) (host_ port_ : string) (o : parsed) (path : string) :
  match process_options verbose_ host_ port_ o path with
  | Usage _ =>
      opt_list_policies o = false
      /\ truthy_opt (opt_name o) = false /\ truthy_opt (opt_id o) = false
  | Ready (self, path') =>
      (opt_list_policies o = true
       \/ truthy_opt (opt_name o) = true \/ truthy_opt (opt_id o) = true)
      /\ policy_name self = opt_name o /\ policy_id self = opt_id o
      /\ list_policies self = opt_list_policies o
      /\ if truthy_opt (opt_id o) && negb (opt_list_policies o)
         then
           path' = path ++ "/" ++ str_opt (opt_id o) /\ path' <> path
           /\ forall json_data st,
                extract self json_data st =
                  (Ok (json_data, PList [json_data]), st)
         else
           path' = path
           /\ forall json_data st,
                extract self json_data st =
                  match subscript json_data "vXPolicies" with
                  | Ok policy_list =>
                      (Ok (if truthy_opt (opt_id o) then json_data else PNone,
                           policy_list), st)
                  | Raise e => (Raise e, st)
                  end
  end.
Proof.
  assert (Hcollection : forall self,
             policy_id self = opt_id o -> list_policies self = opt_list_policies o ->
             truthy_opt (opt_id o) && negb (opt_list_policies o) = false ->
             forall json_data st,
               extract self json_data st =
                 match subscript json_data "vXPolicies" with
                 | Ok policy_list =>
                     (Ok (if truthy_opt (opt_id o) then json_data else PNone,
                          policy_list), st)
                 | Raise e => (Raise e, st)
                 end).
  { intros self Hi Hl Hd json_data st. rewrite extract_collection, Hi;
      [reflexivity | unfold direct_lookup; now rewrite Hi, Hl]. }
  assert (Hdirect : forall self,
             policy_id self = opt_id o -> list_policies self = opt_list_policies o ->
             truthy_opt (opt_id o) && negb (opt_list_policies o) = true ->
             forall json_data st,
               extract self json_data st = (Ok (json_data, PList [json_data]), st)).
  { intros self Hi Hl Hd json_data st. apply extract_direct.
    unfold direct_lookup. now rewrite Hi, Hl. }
  unfold process_options. cbn [policy_name policy_id list_policies].
  destruct (negb (opt_list_policies o)
            && (negb (truthy_opt (opt_name o)) && negb (truthy_opt (opt_id o))))
    eqn:Husage.
  - destruct (opt_list_policies o), (truthy_opt (opt_name o)),
      (truthy_opt (opt_id o)); try discriminate Husage. now repeat split.
  - split.
    { destruct (opt_list_policies o), (truthy_opt (opt_name o)),
        (truthy_opt (opt_id o)); try discriminate Husage; auto. }
    split; [reflexivity|]. split; [reflexivity|]. split; [reflexivity|].
    destruct (truthy_opt (opt_id o) && negb (opt_list_policies o)) eqn:Hd.
    + split; [reflexivity|]. split; [|now apply Hdirect].
      intros H. apply (f_equal String.length) in H.
      rewrite !length_append in H. cbn [String.length] in H. lia.
    + split; [reflexivity | now apply Hcollection].
Qed.

(** X12: a listing ignores what is asked of a policy.  Two sets of
    options that both list the policies, with the same verbosity, host and
    port, end the same way and print the same whatever name, id,
    [--no-audit] and [--recursive] they carry: an id given with
    [--list-policies] does not make the lookup direct. *)
Theorem listing_ignores_criteria
  (self other_ : options) (json_data : pyval) (st : plugin) :
  list_policies self = true -> list_policies other_ = true ->
  verbose self = verbose other_ -> host self = host other_ ->
  port self = port other_ ->
  parse_json self json_data st = parse_json other_ json_data st.
Proof.
  intros Hl Hl' Hv Hh Hp.
  rewrite (parse_json_list self _ _ Hl), (parse_json_list other_ _ _ Hl').
  unfold non_list, host_info. now rewrite Hv, Hh, Hp.
Qed.

Lemma listing_ignores_criteria_witness :
  (list_policies listing = true
   /\ list_policies
        {| policy_name := Some "p1"; policy_id := Some "2"; no_audit := true;
           recursive := true; list_policies := true; verbose := false;
           host := "localhost"; port := "6080" |} = true)
  /\ parse_json listing (collection two_policies) init =
     parse_json
       {| policy_name := Some "p1"; policy_id := Some "2"; no_audit := true;
          recursive := true; list_policies := true; verbose := false;
          host := "localhost"; port := "6080" |}
       (collection two_policies) init.
Proof.
  split; [split; reflexivity|].
  exact (listing_ignores_criteria listing
           {| policy_name := Some "p1"; policy_id := Some "2"; no_audit := true;
              recursive := true; list_policies := true; verbose := false;
              host := "localhost"; port := "6080" |}
           (collection two_policies) init eq_refl eq_refl eq_refl eq_refl eq_refl).
Defined.

(** X13: in a direct lookup, a payload that is true and is no object (a
    list, a text, a number, [true]) is taken for the policy and subscripted:
    the check fails with [TypeError] before anything is written to the
    message or the status, and the run ends unknown; neither a not-found
    nor a no-policies error is reported. *)
Theorem direct_lookup_of_non_object
  (self : options) (json_data : pyval) (st : plugin) :
  truthy_opt (policy_id self) = true ->
  list_policies self = false ->
  truthy json_data = true ->
  is_object json_data = false ->
  parse_json self json_data st = (Raise TypeError, st)
  /\ exit_code (parse_json self json_data st) = ERRORS UNKNOWN.
Proof.
  intros Ht Hl Htrue Hobj.
  assert (Hd : direct_lookup self = true)
    by (unfold direct_lookup; now rewrite Ht, Hl).
  rewrite (parse_json_direct _ _ _ Hd), Htrue, check_policy_steps.
  destruct json_data; try discriminate Hobj; now split.
Qed.

Lemma direct_lookup_of_non_object_witness :
  (truthy_opt (policy_id (by_id "2" (Some "p1"))) = true
   /\ list_policies (by_id "2" (Some "p1")) = false
   /\ truthy (PList [other]) = true
   /\ is_object (PList [other]) = false)
  /\ parse_json (by_id "2" (Some "p1")) (PList [other]) init = (Raise TypeError, init).
Proof.
  split; [repeat split|].
  exact (proj1 (direct_lookup_of_non_object (by_id "2" (Some "p1")) (PList [other])
                  init eq_refl eq_refl eq_refl eq_refl)).
Defined.

End Props.
